(** * Backend resolution of cq-provider-terraform

    A shallow embedding of [client/backend.go]: the state parser/validator
    ([parseAndValidate]), the two backend strategies
    ([NewLocalTerraformBackend], [NewS3TerraformBackend]) and the factory
    ([NewBackend]).

    Go functions that only compute are Rocq functions.  Calls that leave the
    process (AWS sessions, S3, the filesystem) are nodes of a small program
    tree [Go A]; running a tree against a [World] yields the list of calls
    made, in order, and the way the function ended.  The libraries the file
    imports (encoding/json, yaml.v3, gohcl, aws/arn) are modelled in modules
    of their own, at the level at which this file uses them. *)

From Stdlib Require Import ZArith String Ascii DecimalString DecimalZ List.
From stdpp Require Import gmap strings list.

Set Warnings "-register-all".

Local Open Scope string_scope.
Local Open Scope Z_scope.

(** ** Go values shared by every part *)

(** Go's [error] interface values.  [errorString] is what [errors.New] and a
    [fmt.Errorf] without [%w] build; [wrapError] is a [fmt.Errorf] whose format
    ends in [%w]: it keeps the wrapped error. *)
Inductive error : Type :=
| errorString (s : string)
| wrapError (msg : string) (err : error).

(** The [Error()] method. *)
Definition Error (e : error) : string :=
  match e with
  | errorString s => s
  | wrapError msg _ => msg
  end.

Module errors.
Definition New (text : string) : error := errorString text.
End errors.

Module fmt.
(** The verb [%d] on an [int]. *)
Definition d (n : Z) : string := NilZero.string_of_int (Z.to_int n).

(** [fmt.Errorf(prefix + "%s", s)] *)
Definition Errorf_s (prefix s : string) : error := errorString (prefix +:+ s).

(** [fmt.Errorf(prefix + "%d", n)] *)
Definition Errorf_d (prefix : string) (n : Z) : error :=
  errorString (prefix +:+ d n).

(** [fmt.Errorf(prefix + "%w", err)] *)
Definition Errorf_w (prefix : string) (err : error) : error :=
  wrapError (prefix +:+ Error err) err.
End fmt.

(** A Go [int] is 64 bits wide on the platforms the provider is built for. *)
Definition int_min : Z := - 2 ^ 63.
Definition int_max : Z := 2 ^ 63 - 1.
Definition fits_int (z : Z) : bool := (int_min <=? z) && (z <=? int_max).

(** ** encoding/json, as far as [parseAndValidate] uses it *)

Module json.

(** A number literal.  Decoding into a Go [int] goes through
    [strconv.ParseInt] on the literal, so a literal with a fraction or an
    exponent is kept apart from the integer literals. *)
Inductive Number : Type :=
| Integer (z : Z)
| Fractional (literal : string).

Inductive Value : Type :=
| Null
| Bool (b : bool)
| Num (n : Number)
| Str (s : string)
| Array (elems : list Value)
| Object (members : list (string * Value)).

End json.

(** What [json.NewDecoder(reader).Decode] sees of an [io.Reader]: either no
    first JSON value can be read from it (the read fails, the stream is
    empty, or its bytes do not start with the text of a JSON value), or the
    JSON value the stream starts with; [Decode] does not look at what follows
    that value.  The tokenizer itself is not modelled. *)
Inductive Reader : Type :=
| Malformed (err : error)
| Holds (v : json.Value).

(** Modelled from the spec: the state document type and [TerraformData] are
    declared in another file of the package.  The spec gives a state document an
    integer [version] and an opaque payload; [backend.go] reads
    [s.State.Version].  The payload is kept as the members of the JSON object
    other than the version, unmodified. *)
Record StateDocument : Type := mkStateDocument {
  Version : Z;
  Payload : list (string * json.Value)
}.

Record TerraformData : Type := mkTerraformData {
  State : StateDocument
}.

Module Import jsonDecode.
Import json.

Definition lower (c : ascii) : ascii :=
  let n := nat_of_ascii c in
  if ((65 <=? n) && (n <=? 90))%nat then ascii_of_nat (n + 32) else c.

Fixpoint lowerString (s : string) : string :=
  match s with
  | EmptyString => EmptyString
  | String c rest => String (lower c) (lowerString rest)
  end.

(** A struct field is found by its key "preferring an exact match but also
    accepting a case-insensitive match"; on ASCII letters that is equality
    after lower-casing. *)
Definition isVersionKey (k : string) : bool :=
  String.eqb (lowerString k) "version".

(** One object member decoded into the struct.  [null] leaves an [int]
    field as it is; an integer literal that fits is stored; anything else is
    an [UnmarshalTypeError], which the decoder saves (the first one wins)
    while it goes on with the remaining members. *)
Definition member (st : StateDocument * option error) (kv : string * Value)
  : StateDocument * option error :=
  let '(s, saved) := st in
  let '(k, v) := kv in
  let bad := errorString "json: cannot unmarshal value into Go struct field .version of type int" in
  let save := match saved with Some e => Some e | None => Some bad end in
  if isVersionKey k then
    match v with
    | Null => (s, saved)
    | Num (Integer z) =>
        if fits_int z then (mkStateDocument z (Payload s), saved) else (s, save)
    | _ => (s, save)
    end
  else (mkStateDocument (Version s) (Payload s ++ [kv])%list, saved).

Definition zeroState : StateDocument := mkStateDocument 0 [].

(** [Decode(&s.State)] on a zero-valued struct. *)
Definition Decode (r : Reader) : error + StateDocument :=
  match r with
  | Malformed err => inl err
  | Holds Null => inr zeroState
  | Holds (Object ms) =>
      match fold_left member ms (zeroState, None) with
      | (_, Some err) => inl err
      | (s, None) => inr s
      end
  | Holds _ =>
      inl (errorString "json: cannot unmarshal value into Go value of type client.State")
  end.
End jsonDecode.

(** ** The configuration structs and their tags, lines 48-57 *)

(** Every field of the two configuration structs is a Go [string].  The
    struct tags are what yaml.v3 and gohcl read by reflection; a [Field]
    carries the two tags of one field together with its getter and setter. *)
Record Field (T : Type) : Type := mkField {
  yamlKey : string;
  yamlOmitempty : bool;
  hclName : string;
  hclOptional : bool;
  get : T -> string;
  set : string -> T -> T
}.
Arguments mkField {T}.
Arguments yamlKey {T}.
Arguments yamlOmitempty {T}.
Arguments hclName {T}.
Arguments hclOptional {T}.
Arguments get {T}.
Arguments set {T}.

(** A struct type the two decoders can fill: its zero value ([var b T]) and
    its tagged fields in declaration order. *)
Class Tagged (T : Type) : Type := {
  zero : T;
  fields : list (Field T)
}.

Record LocalBackendConfig : Type := mkLocalBackendConfig {
  Path : string
}.

Record S3BackendConfig : Type := mkS3BackendConfig {
  Bucket : string;
  Key : string;
  Region : string;
  RoleArn : string
}.

#[export] Instance LocalBackendConfig_tags : Tagged LocalBackendConfig := {
  zero := mkLocalBackendConfig "";
  fields :=
    [ mkField "path" false "path" false Path (fun v _ => mkLocalBackendConfig v) ]
}.

#[export] Instance S3BackendConfig_tags : Tagged S3BackendConfig := {
  zero := mkS3BackendConfig "" "" "" "";
  fields :=
    [ mkField "bucket" false "bucket" false Bucket
        (fun v b => mkS3BackendConfig v (Key b) (Region b) (RoleArn b));
      mkField "key" false "key" false Key
        (fun v b => mkS3BackendConfig (Bucket b) v (Region b) (RoleArn b));
      mkField "region" false "region" false Region
        (fun v b => mkS3BackendConfig (Bucket b) (Key b) v (RoleArn b));
      mkField "role_arn" true "role_arn" true RoleArn
        (fun v b => mkS3BackendConfig (Bucket b) (Key b) (Region b) v) ]
}.

(** ** Dynamic values *)

(** What an [interface{}] inside [ConfigAttrsYAML] holds: the Go values a
    YAML document decodes to ([float64] scalars are left out). *)
Inductive Dynamic : Type :=
| dNil
| dString (s : string)
| dInt (n : Z)
| dBool (b : bool)
| dSlice (elems : list Dynamic)
| dMap (entries : list (string * Dynamic)).

(** ** gopkg.in/yaml.v3, as far as the decoders use it *)

Module yaml.

Inductive Tag : Type := nullTag | boolTag | intTag | strTag.

(** A YAML node.  The text that [Marshal] emits and [Unmarshal] parses is
    not modelled: the [[]byte] between the two calls is the node tree it is
    the text of. *)
Inductive Node : Type :=
| Scalar (tag : Tag) (value : string)
| Sequence (content : list Node)
| Mapping (content : list (string * Node)).

Fixpoint encode (v : Dynamic) : Node :=
  match v with
  | dNil => Scalar nullTag "null"
  | dString s => Scalar strTag s
  | dInt n => Scalar intTag (fmt.d n)
  | dBool b => Scalar boolTag (if b then "true" else "false")
  | dSlice elems => Sequence (List.map encode elems)
  | dMap entries => Mapping (List.map (fun kv => (fst kv, encode (snd kv))) entries)
  end.

(** [yaml.Marshal] of a [map[string]interface{}]: a mapping document, one
    entry per key of the Go map.  On these values it returns no error. *)
Definition Marshal (m : gmap string Dynamic) : gmap string Node :=
  encode <$> m.

(** [yaml.Marshal] of a tagged struct: a field tagged [omitempty] is left
    out when it holds the empty string. *)
Definition MarshalStruct {T} `{Tagged T} (v : T) : gmap string Node :=
  fold_left
    (fun doc f =>
       if yamlOmitempty f && String.eqb (get f v) ""
       then doc
       else <[yamlKey f := Scalar strTag (get f v)]> doc)
    fields ∅.

(** A node decoded into a [string] field: a null leaves the field alone,
    any other scalar stores its text, a sequence or a mapping is a type
    error. *)
Definition decodeString (n : Node) (old : string) : string * list string :=
  match n with
  | Scalar nullTag _ => (old, [])
  | Scalar _ value => (value, [])
  | Sequence _ => (old, ["cannot unmarshal !!seq into string"])
  | Mapping _ => (old, ["cannot unmarshal !!map into string"])
  end.

(** One struct field filled from the document: a field whose key is absent
    keeps its value. *)
Definition decodeField {T} (doc : gmap string Node)
    (acc : T * list string) (f : Field T) : T * list string :=
  match doc !! yamlKey f with
  | None => acc
  | Some n =>
      let '(v, errs) := decodeString n (get f (fst acc)) in
      (set f v (fst acc), (snd acc ++ errs)%list)
  end.

(** [yaml.Unmarshal(in, &out)]: keys that name no field are skipped, and
    the type errors met on the way are returned together at the end, as one
    [*yaml.TypeError] (its message, which lists them by line, is cut down to
    its first line). *)
Definition Unmarshal {T} `{Tagged T} (doc : gmap string Node) (out : T)
  : T * option error :=
  let '(out', terrors) := fold_left (decodeField doc) fields (out, []) in
  match terrors with
  | [] => (out', None)
  | _ :: _ => (out', Some (errorString "yaml: unmarshal errors"))
  end.

End yaml.

(** ** hashicorp/hcl and gohcl, as far as the decoders use them *)

Module hcl.

(** An attribute's expression, by what evaluating it without an
    [EvalContext] gives. *)
Inductive Expression : Type :=
| StringLit (s : string)
| NumberLit (n : Z)
| BoolLit (b : bool)
| NullLit
| Collection
| Reference (name : string).

(** The content of an [hcl.Body]: its attributes by name (the parser
    rejects a name defined twice) and the types of its nested blocks. *)
Record Body : Type := mkBody {
  Attributes : gmap string Expression;
  Blocks : list string
}.

(** [hcl.Diagnostics], each diagnostic by its summary.  The nil slice is
    the empty list: gohcl only ever appends to a nil [diags]. *)
Abbreviation Diagnostics := (list string).

End hcl.

Module gohcl.
Import hcl.

(** [gohcl.DecodeExpression(expr, nil, &field)] for a [string] field: the
    value is converted to a cty string (numbers and booleans convert), and a
    null, a collection or an expression that needs variables is reported. *)
Definition DecodeExpression (expr : Expression) : option string :=
  match expr with
  | StringLit s => Some s
  | NumberLit n => Some (fmt.d n)
  | BoolLit b => Some (if b then "true" else "false")
  | NullLit | Collection | Reference _ => None
  end.

Definition declared {T} `{Tagged T} (name : string) : bool :=
  existsb (fun f => String.eqb (hclName f) name) fields.

(** [body.Content(schema)] against the schema implied by the struct tags:
    one diagnostic per required attribute that is absent, per attribute the
    struct does not declare, and per block (the structs declare none). *)
Definition Content {T} `{Tagged T} (body : Body) : Diagnostics :=
  (List.map (fun f : Field T => "Missing required argument")
     (List.filter
        (fun f => negb (hclOptional f)
                  && bool_decide (Attributes body !! hclName f = None))
        fields)
   ++ List.map (fun kv : string * Expression => "Unsupported argument")
        (List.filter (fun kv => negb (declared (T:=T) (fst kv)))
           (map_to_list (Attributes body)))
   ++ List.map (fun b : string => "Unsupported block type") (Blocks body))%list.

(** One struct field filled from the body's attribute of its name, if
    there is one. *)
Definition decodeAttribute {T} (body : Body)
    (acc : T * Diagnostics) (f : Field T) : T * Diagnostics :=
  match Attributes body !! hclName f with
  | None => acc
  | Some expr =>
      match DecodeExpression expr with
      | Some v => (set f v (fst acc), snd acc)
      | None => (fst acc, (snd acc ++ ["Unsuitable value type"])%list)
      end
  end.

(** [gohcl.DecodeBody(body, nil, &out)]: the struct as filled in place and
    the diagnostics. *)
Definition DecodeBody {T} `{Tagged T} (body : Body) (out : T)
  : T * Diagnostics :=
  fold_left (decodeAttribute body) fields (out, Content (T:=T) body).

End gohcl.

(** ** aws-sdk-go/aws/arn *)

Module arn.

Record ARN : Type := mkARN {
  Partition : string;
  Service : string;
  Region : string;
  AccountID : string;
  Resource : string
}.

(** The text up to the first colon, and what follows that colon if there
    is one. *)
Fixpoint cut (s : string) : string * option string :=
  match s with
  | EmptyString => (EmptyString, None)
  | String c rest =>
      if Ascii.eqb c ":" then (EmptyString, Some rest)
      else let '(h, t) := cut rest in (String c h, t)
  end.

(** [strings.SplitN(s, ":", n)] for [n > 0]. *)
Fixpoint SplitN (n : nat) (s : string) : list string :=
  match n with
  | O => []
  | S O => [s]
  | S n' =>
      match cut s with
      | (h, None) => [h]
      | (h, Some t) => h :: SplitN n' t
      end
  end.

Definition HasPrefix (s pre : string) : bool :=
  String.eqb (substring 0 (String.length pre) s) pre.

Definition Parse (arn : string) : error + ARN :=
  if negb (HasPrefix arn "arn:") then inl (errors.New "arn: invalid prefix")
  else
    match SplitN 6 arn with
    | [_; partition; service; region; account; resource] =>
        inr (mkARN partition service region account resource)
    | _ => inl (errors.New "arn: not enough sections")
    end.

Definition String (a : ARN) : string :=
  "arn:" +:+ Partition a +:+ ":" +:+ Service a +:+ ":" +:+ Region a
    +:+ ":" +:+ AccountID a +:+ ":" +:+ Resource a.

End arn.

(** ** The values exchanged with the AWS SDK and the filesystem *)

Module aws.

(** A [*session.Session]: an opaque handle the SDK hands out. *)
Record Session : Type := mkSession { SessionID : nat }.

(** [stscreds.NewCredentials(c, roleARN)]: credentials that assume the
    role through the session [c] when they are first needed. *)
Inductive Credentials : Type :=
| AssumeRole (c : Session) (roleARN : string).

(** [aws.Config], the two fields this file sets; [None] is the nil
    pointer. *)
Record Config : Type := mkConfig {
  Region : option string;
  Credentials_ : option Credentials
}.

Inductive SharedConfigState : Type :=
| SharedConfigStateFromEnv
| SharedConfigDisable
| SharedConfigEnable.

Record Options : Type := mkOptions {
  Config_ : Config;
  SharedConfigState_ : SharedConfigState
}.

(** The client [s3.New(sess, awsCfg)] returns: the session it is bound to
    and the configuration laid over the session's own. *)
Record S3 : Type := mkS3 {
  Session_ : Session;
  Overrides : Config
}.

Record GetObjectInput : Type := mkGetObjectInput {
  Bucket : string;
  Key : string
}.

Record GetObjectOutput : Type := mkGetObjectOutput {
  Body : Reader
}.

End aws.

Module stscreds.
Definition NewCredentials (c : aws.Session) (roleARN : string)
  : aws.Credentials := aws.AssumeRole c roleARN.
End stscreds.

Module s3.
Definition New (sess : aws.Session) (cfg : aws.Config) : aws.S3 :=
  aws.mkS3 sess cfg.
End s3.

(** An open [*os.File]: the name it was opened under and what reading it
    yields. *)
Record File : Type := mkFile {
  Name : string;
  Content : Reader
}.

(** ** Calls that leave the process *)

(** One constructor per library call of [backend.go] that reaches the
    network or the filesystem, with the arguments it is made with. *)
Inductive Event : Type :=
| session_NewSession
| session_NewSessionWithOptions (opts : aws.Options)
| s3manager_GetBucketRegion (c : aws.Session) (bucket regionHint : string)
| S3_GetObject (svc : aws.S3) (input : aws.GetObjectInput)
| os_Open (name : string)
| File_Close (f : File).

(** What each call hands back. *)
Definition Response (e : Event) : Type :=
  match e with
  | session_NewSession => error + aws.Session
  | session_NewSessionWithOptions _ => error + aws.Session
  | s3manager_GetBucketRegion _ _ _ => error + string
  | S3_GetObject _ _ => error + aws.GetObjectOutput
  | os_Open _ => error + File
  | File_Close _ => option error
  end%type.

(** The environment of one resolve: its answer to every call. *)
Definition World : Type := forall e : Event, Response e.

(** A Go function body returning a pointer and an error: it returns a value
    ([return &a, nil]), returns an error ([return nil, err]), panics, or makes
    a call and goes on with the answer. *)
Inductive Go (A : Type) : Type :=
| Return (a : A)
| Fail (err : error)
| Panic (v : string)
| Call (e : Event) (k : Response e -> Go A).
Arguments Return {A}.
Arguments Fail {A}.
Arguments Panic {A}.
Arguments Call {A}.

Fixpoint bind {A B} (m : Go A) (f : A -> Go B) : Go B :=
  match m with
  | Return a => f a
  | Fail err => Fail err
  | Panic v => Panic v
  | Call e k => Call e (fun r => bind (k r) f)
  end.

#[export] Instance Go_ret : MRet Go := @Return.
#[export] Instance Go_bind : MBind Go := fun A B f m => bind m f.

(** A single call. *)
Definition call (e : Event) : Go (Response e) := Call e Return.

(** [if err != nil { return nil, err }] after a call returning
    [(value, error)]. *)
Definition orFail {A} (r : error + A) : Go A :=
  match r with
  | inl err => Fail err
  | inr a => Return a
  end.

(** [defer g()] placed in front of [m]: [g] runs when the function leaves,
    whichever way it leaves; what [g] returns is dropped. *)
Fixpoint defer {A} (g : Event) (m : Go A) : Go A :=
  match m with
  | Return a => Call g (fun _ => Return a)
  | Fail err => Call g (fun _ => Fail err)
  | Panic v => Call g (fun _ => Panic v)
  | Call e k => Call e (fun r => defer g (k r))
  end.

(** How a function ended. *)
Inductive Outcome (A : Type) : Type :=
| Returned (a : A)
| Failed (err : error)
| Panicked (v : string).
Arguments Returned {A}.
Arguments Failed {A}.
Arguments Panicked {A}.

(** Running a body in a world: the calls made, in order, and the outcome. *)
Fixpoint run {A} (w : World) (m : Go A) : list Event * Outcome A :=
  match m with
  | Return a => ([], Returned a)
  | Fail err => ([], Failed err)
  | Panic v => ([], Panicked v)
  | Call e k => let '(t, o) := run w (k (w e)) in (e :: t, o)
  end.

Definition trace {A} (w : World) (m : Go A) : list Event := fst (run w m).
Definition outcome {A} (w : World) (m : Go A) : Outcome A := snd (run w m).

Definition isDiscovery (e : Event) : bool :=
  match e with s3manager_GetBucketRegion _ _ _ => true | _ => false end.

Definition isFetch (e : Event) : bool :=
  match e with S3_GetObject _ _ => true | _ => false end.

(** The calls made before the first object fetch, when there is a fetch. *)
Fixpoint beforeFetch (t : list Event) : option (list Event) :=
  match t with
  | [] => None
  | e :: rest =>
      if isFetch e then Some []
      else match beforeFetch rest with
           | Some pre => Some (e :: pre)
           | None => None
           end
  end.

(** ** The package's own types, lines 23-46 *)

Module cqproto.
(** [cqproto.ConfigFormat] is an [int] with [ConfigHCL = iota] and
    [ConfigYAML] after it. *)
Abbreviation ConfigFormat := Z.
Definition ConfigHCL : ConfigFormat := 0.
Definition ConfigYAML : ConfigFormat := 1.
End cqproto.

Definition BackendType : Type := string.
Definition LOCAL : BackendType := "local".
Definition S3 : BackendType := "s3".

(** The value of the [interface{}] field [ConfigAttrsHCL]: nil, an
    [hcl.Body], or a value of some other dynamic type. *)
Inductive interface : Type :=
| nilInterface
| bodyInterface (body : hcl.Body)
| otherInterface (v : Dynamic).

Module BackendConfigBlock.
Record t : Type := mk {
  BackendName : string;
  BackendType : string;
  ConfigAttrsHCL : interface;
  ConfigAttrsYAML : gmap string Dynamic;
  format : cqproto.ConfigFormat
}.
End BackendConfigBlock.

Module TerraformBackend.
Record t : Type := mk {
  BackendType : BackendType;
  BackendName : string;
  Data : TerraformData
}.
End TerraformBackend.

(** The type assertion [config.ConfigAttrsHCL.(hcl.Body)] in its one-result
    form: it panics unless the interface holds a body. *)
Definition assertBody {A} (i : interface) (k : hcl.Body -> Go A) : Go A :=
  match i with
  | bodyInterface cfg => k cfg
  | nilInterface =>
      Panic "interface conversion: interface is nil, not hcl.Body"
  | otherInterface _ =>
      Panic "interface conversion: interface {} is not hcl.Body"
  end.

(** [session.Must(session.NewSession())] *)
Definition session_Must (r : error + aws.Session) : Go aws.Session :=
  match r with
  | inl err => Panic (Error err)
  | inr sess => Return sess
  end.

(** ** The functions of [backend.go] *)

Section Backend.

(** The one supported state version; the constant is declared in another file
    of the package. *)
Variable StateVersion : Z.

(** [parseAndValidate], lines 60-69.  Of the pointer and the error the Go
    function returns, exactly one is set. *)
Definition parseAndValidate (reader : Reader) : error + TerraformData :=
  match Decode reader with
  | inl _ => inl (errorString "invalid tf state file")
  | inr st =>
      if negb (Version st =? StateVersion)
      then inl (fmt.Errorf_d "unsupported state version " (Version st))
      else inr (mkTerraformData st)
  end.

(** [NewS3TerraformBackend], lines 72-85: [var b S3BackendConfig] and the
    switch on [config.format] that fills it. *)
Definition decodeS3BackendConfig (config : BackendConfigBlock.t)
  : Go S3BackendConfig :=
  let b : S3BackendConfig := zero in
  if BackendConfigBlock.format config =? cqproto.ConfigHCL then
    assertBody (BackendConfigBlock.ConfigAttrsHCL config) (fun cfg =>
      match gohcl.DecodeBody cfg b with
      | (b, []) => Return b
      | (_, _ :: _) => Fail (errors.New "cannot parse s3 backend config")
      end)
  else
    let cfgBytes := yaml.Marshal (BackendConfigBlock.ConfigAttrsYAML config) in
    match yaml.Unmarshal cfgBytes b with
    | (_, Some err) => Fail (fmt.Errorf_w "cannot parse s3 backend config: " err)
    | (b, None) => Return b
    end.

(** [NewS3TerraformBackend], lines 87-141: what follows the switch. *)
Definition resolveS3 (config : BackendConfigBlock.t) (b : S3BackendConfig)
  : Go TerraformBackend.t :=
  b ← (if String.eqb (Region b) "" then
         r ← call session_NewSession;
         c ← session_Must r;
         r ← call (s3manager_GetBucketRegion c (Bucket b) "us-east-1");
         region ← orFail r;
         Return (mkS3BackendConfig (Bucket b) (Key b) region (RoleArn b))
       else Return b);
  r ← call (session_NewSessionWithOptions
              (aws.mkOptions (aws.mkConfig (Some (Region b)) None)
                 aws.SharedConfigEnable));
  sess ← orFail r;
  awsCfg ← (if negb (String.eqb (RoleArn b) "") then
              parsedArn ← orFail (arn.Parse (RoleArn b));
              let creds := stscreds.NewCredentials sess (arn.String parsedArn) in
              Return (aws.mkConfig None (Some creds))
            else Return (aws.mkConfig None None));
  let svc := s3.New sess awsCfg in
  r ← call (S3_GetObject svc (aws.mkGetObjectInput (Bucket b) (Key b)));
  result ← orFail r;
  terraformData ← orFail (parseAndValidate (aws.Body result));
  Return (TerraformBackend.mk S3 (BackendConfigBlock.BackendName config)
            terraformData).

Definition NewS3TerraformBackend (config : BackendConfigBlock.t)
  : Go TerraformBackend.t :=
  b ← decodeS3BackendConfig config;
  resolveS3 config b.

(** [NewLocalTerraformBackend], lines 145-158. *)
Definition decodeLocalBackendConfig (config : BackendConfigBlock.t)
  : Go LocalBackendConfig :=
  let b : LocalBackendConfig := zero in
  if BackendConfigBlock.format config =? cqproto.ConfigHCL then
    assertBody (BackendConfigBlock.ConfigAttrsHCL config) (fun cfg =>
      match gohcl.DecodeBody cfg b with
      | (b, []) => Return b
      | (_, _ :: _) => Fail (errors.New "cannot parse local backend config")
      end)
  else
    let cfgBytes := yaml.Marshal (BackendConfigBlock.ConfigAttrsYAML config) in
    match yaml.Unmarshal cfgBytes b with
    | (_, Some err) =>
        Fail (fmt.Errorf_w "cannot parse local backend config: " err)
    | (b, None) => Return b
    end.

(** [NewLocalTerraformBackend], lines 160-175. *)
Definition resolveLocal (config : BackendConfigBlock.t) (b : LocalBackendConfig)
  : Go TerraformBackend.t :=
  r ← call (os_Open (Path b));
  match r with
  | inl _ => Fail (fmt.Errorf_s "failed to read tfstate from " (Path b))
  | inr f =>
      defer (File_Close f)
        (terraformData ← orFail (parseAndValidate (Content f));
         Return (TerraformBackend.mk LOCAL
                   (BackendConfigBlock.BackendName config) terraformData))
  end.

Definition NewLocalTerraformBackend (config : BackendConfigBlock.t)
  : Go TerraformBackend.t :=
  b ← decodeLocalBackendConfig config;
  resolveLocal config b.

(** [NewBackend], lines 179-196. *)
Definition NewBackend (cfg : BackendConfigBlock.t) : Go TerraformBackend.t :=
  if String.eqb (BackendConfigBlock.BackendType cfg) "local" then
    localBackend ← NewLocalTerraformBackend cfg;
    Return localBackend
  else if String.eqb (BackendConfigBlock.BackendType cfg) "s3" then
    s3Backend ← NewS3TerraformBackend cfg;
    Return s3Backend
  else Fail (errors.New "unsupported backend").


(** ** Vocabulary of the statements *)

(** A member that makes [Decode] fail: its key names the version field and
    its value is neither [null] nor an integer literal that fits an [int]. *)
Definition badVersionMember (kv : string * json.Value) : bool :=
  isVersionKey (fst kv)
  && negb match snd kv with
          | json.Null => true
          | json.Num (json.Integer z) => fits_int z
          | _ => false
          end.

(** The readers [Decode] rejects. *)
Definition undecodable (r : Reader) : bool :=
  match r with
  | Malformed _ => true
  | Holds json.Null => false
  | Holds (json.Object ms) => existsb badVersionMember ms
  | Holds _ => true
  end.

(** The claim's reading of "an object containing a numeric version field". *)
Definition hasNumericVersion (v : json.Value) : bool :=
  match v with
  | json.Object ms =>
      existsb (fun kv => String.eqb (fst kv) "version"
                         && match snd kv with json.Num _ => true | _ => false end) ms
  | _ => false
  end.

(** The Go map that a struct's YAML document decodes to when its target is a
    [map[string]interface{}]: one string entry per emitted field. *)
Definition structAttrs {T} `{Tagged T} (v : T) : gmap string Dynamic :=
  fold_left
    (fun m f =>
       if yamlOmitempty f && String.eqb (get f v) ""
       then m
       else <[yamlKey f := dString (get f v)]> m)
    fields ∅.

(** The string a YAML-format payload gives a field of a fresh struct: an
    absent key and a null leave the empty string, a scalar gives its text, a
    slice or a map gives none (a type error). *)
Definition yamlText (o : option Dynamic) : option string :=
  match o with
  | None | Some dNil => Some ""
  | Some (dString s) => Some s
  | Some (dInt n) => Some (fmt.d n)
  | Some (dBool b) => Some (if b then "true" else "false")
  | Some (dSlice _) | Some (dMap _) => None
  end.

Definition yamlField (attrs : gmap string Dynamic) (key : string)
  : option string := yamlText (attrs !! key).

(** The calls that reach the filesystem. *)
Definition isFileEvent (e : Event) : bool :=
  match e with os_Open _ | File_Close _ => true | _ => false end.

(** [failedWith w e err]: in the world [w] the call [e] hands back the error
    [err]. *)
Definition failedWith (w : World) (e : Event) (err : error) : Prop :=
  match e with
  | session_NewSession => w session_NewSession = inl err
  | session_NewSessionWithOptions opts =>
      w (session_NewSessionWithOptions opts) = inl err
  | s3manager_GetBucketRegion c bucket hint =>
      w (s3manager_GetBucketRegion c bucket hint) = inl err
  | S3_GetObject svc input => w (S3_GetObject svc input) = inl err
  | os_Open name => w (os_Open name) = inl err
  | File_Close f => w (File_Close f) = Some err
  end.

(** The HCL body that sets every field of a struct to a string literal under
    the name of its [hcl] tag; a field tagged [optional] is left out when it
    holds the empty string. *)
Definition structBody {T} `{Tagged T} (v : T) : hcl.Body :=
  hcl.mkBody
    (fold_left
       (fun m f =>
          if hclOptional f && String.eqb (get f v) ""
          then m
          else <[hclName f := hcl.StringLit (get f v)]> m)
       fields ∅)
    [].

(** The ways a run of [NewBackend] can go, by backend type and by what
    decoding gives. *)
Inductive Dispatch (w : World) (cfg : BackendConfigBlock.t) : Prop :=
| dispatch_unsupported :
    BackendConfigBlock.BackendType cfg <> "local" ->
    BackendConfigBlock.BackendType cfg <> "s3" ->
    run w (NewBackend cfg) = ([], Failed (errors.New "unsupported backend")) ->
    Dispatch w cfg
| dispatch_local_fail err :
    BackendConfigBlock.BackendType cfg = "local" ->
    decodeLocalBackendConfig cfg = Fail err ->
    run w (NewBackend cfg) = ([], Failed err) ->
    Dispatch w cfg
| dispatch_local_panic v :
    BackendConfigBlock.BackendType cfg = "local" ->
    decodeLocalBackendConfig cfg = Panic v ->
    run w (NewBackend cfg) = ([], Panicked v) ->
    Dispatch w cfg
| dispatch_local b :
    BackendConfigBlock.BackendType cfg = "local" ->
    decodeLocalBackendConfig cfg = Return b ->
    run w (NewBackend cfg) = run w (resolveLocal cfg b) ->
    Dispatch w cfg
| dispatch_s3_fail err :
    BackendConfigBlock.BackendType cfg = "s3" ->
    decodeS3BackendConfig cfg = Fail err ->
    run w (NewBackend cfg) = ([], Failed err) ->
    Dispatch w cfg
| dispatch_s3_panic v :
    BackendConfigBlock.BackendType cfg = "s3" ->
    decodeS3BackendConfig cfg = Panic v ->
    run w (NewBackend cfg) = ([], Panicked v) ->
    Dispatch w cfg
| dispatch_s3 b :
    BackendConfigBlock.BackendType cfg = "s3" ->
    decodeS3BackendConfig cfg = Return b ->
    run w (NewBackend cfg) = run w (resolveS3 cfg b) ->
    Dispatch w cfg.

(** ** Concrete inputs *)

Definition sampleState : Reader :=
  Holds (json.Object [("version", json.Num (json.Integer 4));
                      ("serial", json.Num (json.Integer 7))]).

Definition oldState : Reader :=
  Holds (json.Object [("version", json.Num (json.Integer 3))]).

(** A world in which sessions can be created, the bucket lives in
    eu-west-1, the object and the file "terraform.tfstate" hold
    [sampleState], and no other file exists.  As the SDK does, it refuses a
    [GetObjectInput] with an empty bucket or key. *)
Definition sampleWorld : World := fun e =>
  match e as e' return Response e' with
  | session_NewSession => inr (aws.mkSession 0)
  | session_NewSessionWithOptions _ => inr (aws.mkSession 1)
  | s3manager_GetBucketRegion _ _ _ => inr "eu-west-1"
  | S3_GetObject _ input =>
      if String.eqb (aws.Bucket input) "" || String.eqb (aws.Key input) ""
      then inl (errorString "InvalidParameter: 1 validation error(s) found.")
      else inr (aws.mkGetObjectOutput sampleState)
  | os_Open name =>
      if String.eqb name "terraform.tfstate"
      then inr (mkFile name sampleState)
      else inl (errorString "open: no such file or directory")
  | File_Close _ => None
  end.

(** The same world, except that the bucket-region lookup fails. *)
Definition lookupFails : World := fun e =>
  match e as e' return Response e' with
  | s3manager_GetBucketRegion _ _ _ => inl (errorString "NotFound: bucket")
  | e' => sampleWorld e'
  end.

Definition yamlBlock (kind : string) (attrs : gmap string Dynamic)
  : BackendConfigBlock.t :=
  BackendConfigBlock.mk "state" kind nilInterface attrs cqproto.ConfigYAML.

Definition hclBlock (kind : string) (attrs : gmap string hcl.Expression)
  : BackendConfigBlock.t :=
  BackendConfigBlock.mk "state" kind (bodyInterface (hcl.mkBody attrs [])) ∅
    cqproto.ConfigHCL.

Definition roleARN : string := "arn:aws:iam::123456789012:role/reader".

(** s3 payloads: without [bucket]; without [region]; with a role ARN; with
    a string that is no ARN. *)
Definition noBucket : gmap string Dynamic :=
  <["key" := dString "tf/state"]> (<["region" := dString "us-west-2"]> ∅).

Definition noRegion : gmap string Dynamic :=
  <["bucket" := dString "b"]> (<["key" := dString "tf/state"]> ∅).

Definition withRole : gmap string Dynamic :=
  <["role_arn" := dString roleARN]> (<["region" := dString "us-west-2"]> noRegion).

Definition badRole : gmap string Dynamic :=
  <["role_arn" := dString "reader"]> (<["region" := dString "us-west-2"]> noRegion).

Definition hclNoBucket : gmap string hcl.Expression :=
  <["key" := hcl.StringLit "tf/state"]>
    (<["region" := hcl.StringLit "us-west-2"]> ∅).

Definition bucketField : Field S3BackendConfig :=
  mkField "bucket" false "bucket" false Bucket
    (fun v b => mkS3BackendConfig v (Key b) (Region b) (RoleArn b)).

Definition localAt (path : string) : gmap string Dynamic :=
  <["path" := dString path]> ∅.

(** The same world, except that no default session can be created. *)
Definition noSession : World := fun e =>
  match e as e' return Response e' with
  | session_NewSession => inl (errorString "failed to load shared config")
  | e' => sampleWorld e'
  end.

(** The same world, except that every file holds a state of version 3. *)
Definition staleFiles : World := fun e =>
  match e as e' return Response e' with
  | os_Open name => inr (mkFile name oldState)
  | e' => sampleWorld e'
  end.

(** An s3 body with every attribute and one more, [profile]. *)
Definition hclWithProfile : gmap string hcl.Expression :=
  <["profile" := hcl.StringLit "dev"]>
    (<["bucket" := hcl.StringLit "b"]> hclNoBucket).

Definition sampleBackend (kind : string) : TerraformBackend.t :=
  TerraformBackend.mk kind "state"
    (mkTerraformData
       (mkStateDocument 4 [("serial", json.Num (json.Integer 7))])).

Definition regionalOptions (region : string) : aws.Options :=
  aws.mkOptions (aws.mkConfig (Some region) None) aws.SharedConfigEnable.

Definition sampleFetch : Event :=
  S3_GetObject (s3.New (aws.mkSession 1) (aws.mkConfig None None))
    (aws.mkGetObjectInput "b" "tf/state").

(** ** Properties of the JSON decoder *)

Lemma member_keeps_error s e kv : snd (member (s, Some e) kv) = Some e.
Proof.
  destruct kv as [k v]. unfold member.
  destruct (isVersionKey k); [|reflexivity].
  destruct v as [| |[z|]| | |]; try reflexivity.
  destruct (fits_int z); reflexivity.
Qed.

Lemma fold_member_keeps_error ms s e :
  snd (fold_left member ms (s, Some e)) = Some e.
Proof.
  revert s. induction ms as [|kv ms IH]; intros s; [reflexivity|].
  cbn [fold_left].
  pose proof (member_keeps_error s e kv) as Hk.
  destruct (member (s, Some e) kv) as [s' saved]. cbn in Hk. subst saved.
  apply IH.
Qed.

Lemma member_clean s kv :
  snd (member (s, None) kv) = None <-> badVersionMember kv = false.
Proof.
  destruct kv as [k v]. unfold member, badVersionMember. cbn [fst snd].
  destruct (isVersionKey k); cbn [andb]; [|tauto].
  destruct v as [| |[z|]| | |]; cbn; try tauto; try (split; discriminate).
  destruct (fits_int z); cbn; split; congruence.
Qed.

Lemma fold_member_clean ms s :
  snd (fold_left member ms (s, None)) = None <-> existsb badVersionMember ms = false.
Proof.
  revert s. induction ms as [|kv ms IH]; intros s; [cbn; tauto|].
  cbn [fold_left existsb].
  pose proof (member_clean s kv) as Hk.
  destruct (member (s, None) kv) as [s' [e|]] eqn:Hm; cbn [snd] in Hk.
  - rewrite fold_member_keeps_error.
    destruct (badVersionMember kv); cbn [orb]; [split; discriminate|].
    destruct Hk as [_ Hk]. specialize (Hk eq_refl). discriminate.
  - destruct Hk as [Hk _]. rewrite (Hk eq_refl). cbn [orb]. apply IH.
Qed.

Lemma Decode_fails_iff r :
  (exists err, Decode r = inl err) <-> undecodable r = true.
Proof.
  destruct r as [err|v]; cbn.
  - split; eauto.
  - destruct v as [| | | | |ms]; cbn;
      try (split; [reflexivity | eauto]);
      try (split; [intros [? ?]; discriminate | discriminate]).
    pose proof (fold_member_clean ms zeroState) as Hc.
    destruct (fold_left member ms (zeroState, None)) as [s [e|]]; cbn [snd] in Hc.
    + split; [intros _|eauto].
      destruct (existsb badVersionMember ms); [reflexivity|].
      destruct Hc as [_ Hc]. specialize (Hc eq_refl). discriminate.
    + split; [intros [? ?]; discriminate|].
      destruct Hc as [Hc _]. rewrite (Hc eq_refl). discriminate.
Qed.

(** The decimal rendering of [%d] tells the numbers apart. *)
Lemma fmt_d_inj n m : fmt.d n = fmt.d m -> n = m.
Proof.
  unfold fmt.d. intros H.
  assert (Hnorm : forall z, Z.to_int z <> Decimal.Pos Decimal.Nil
                            /\ Z.to_int z <> Decimal.Neg Decimal.Nil).
  { intros z.
    assert (Hz : Z.to_int z = Decimal.norm (Z.to_int z))
      by (rewrite <- DecimalZ.to_of, DecimalZ.of_to; reflexivity).
    rewrite Hz.
    destruct (Z.to_int z) as [d|d]; cbn.
    - unfold Decimal.unorm. destruct (Decimal.nzhead d); split; discriminate.
    - destruct (Decimal.nzhead d); split; discriminate. }
  apply DecimalZ.to_int_inj.
  destruct (Hnorm n) as [Hn1 Hn2], (Hnorm m) as [Hm1 Hm2].
  pose proof (NilZero.isi _ Hn1 Hn2) as En.
  pose proof (NilZero.isi _ Hm1 Hm2) as Em.
  rewrite H in En. congruence.
Qed.


(** ** Running program trees *)

Lemma run_bind {A B} (w : World) (m : Go A) (f : A -> Go B) :
  run w (m ≫= f) =
  match run w m with
  | (t, Returned a) => let '(t', o) := run w (f a) in ((t ++ t')%list, o)
  | (t, Failed err) => (t, Failed err)
  | (t, Panicked v) => (t, Panicked v)
  end.
Proof.
  unfold mbind, Go_bind.
  induction m as [a|err|v|e k IH]; cbn [bind run].
  - destruct (run w (f a)); reflexivity.
  - reflexivity.
  - reflexivity.
  - rewrite IH. destruct (run w (k (w e))) as [t [a|err|v]]; try reflexivity.
    destruct (run w (f a)); reflexivity.
Qed.

Lemma run_bind_Return {A} (w : World) (m : Go A) :
  run w (a ← m; Return a) = run w m.
Proof.
  rewrite run_bind. destruct (run w m) as [t [a|err|v]]; try reflexivity.
  cbn. rewrite app_nil_r. reflexivity.
Qed.


(** Case analysis along one run: unfold the monad, and split on whatever the
    next step of the body inspects. *)
Ltac unfold_go :=
  unfold trace, outcome, mbind, Go_bind, call, orFail, session_Must in *;
  cbn [run bind defer assertBody fst snd
       Bucket Key Region RoleArn Path aws.Body Content] in *.

Ltac explore w :=
  repeat (unfold_go;
          match goal with
          | |- context [w ?e] => destruct (w e) eqn:?
          | |- context [if String.eqb ?a ?b then _ else _] =>
              destruct (String.eqb a b) eqn:?
          | |- context [if negb (String.eqb ?a ?b) then _ else _] =>
              destruct (String.eqb a b) eqn:?; cbn [negb]
          | |- context [match arn.Parse ?s with _ => _ end] =>
              destruct (arn.Parse s) eqn:?
          | |- context [match parseAndValidate ?r with _ => _ end] =>
              destruct (parseAndValidate r) eqn:?
          end);
  unfold_go.

Lemma parseAndValidate_version reader data :
  parseAndValidate reader = inr data -> Version (State data) = StateVersion.
Proof.
  unfold parseAndValidate.
  destruct (Decode reader) as [err|st]; [discriminate|].
  destruct (Version st =? StateVersion) eqn:Hv; cbn [negb]; [|discriminate].
  intros [= <-]. cbn. apply Z.eqb_eq, Hv.
Qed.

Lemma NewBackend_local w cfg :
  BackendConfigBlock.BackendType cfg = "local" ->
  run w (NewBackend cfg) = run w (NewLocalTerraformBackend cfg).
Proof.
  intros H. unfold NewBackend. rewrite H. cbn [String.eqb Ascii.eqb Bool.eqb].
  apply run_bind_Return.
Qed.

Lemma NewBackend_s3 w cfg :
  BackendConfigBlock.BackendType cfg = "s3" ->
  run w (NewBackend cfg) = run w (NewS3TerraformBackend cfg).
Proof.
  intros H. unfold NewBackend. rewrite H. cbn [String.eqb Ascii.eqb Bool.eqb].
  apply run_bind_Return.
Qed.

Lemma resolveLocal_Returned w config b tb :
  outcome w (resolveLocal config b) = Returned tb ->
  Version (State (TerraformBackend.Data tb)) = StateVersion.
Proof.
  unfold resolveLocal. explore w; try discriminate.
  intros [= <-]. cbn. eauto using parseAndValidate_version.
Qed.

Lemma resolveS3_Returned w config b tb :
  outcome w (resolveS3 config b) = Returned tb ->
  Version (State (TerraformBackend.Data tb)) = StateVersion.
Proof.
  unfold resolveS3. explore w; try discriminate;
    intros [= <-]; cbn; eauto using parseAndValidate_version.
Qed.


(** ** The state parser / validator: claims C2 and C3 *)


(** C3.  A reader that decodes to a document whose version differs from
    [StateVersion] makes [parseAndValidate] fail with the error
    "unsupported state version N", N being the decimal rendering of the
    version found (distinct versions give distinct messages); nothing else
    in the document matters.  A document that [parseAndValidate] returns, and
    one that [NewBackend] returns to its caller in any world, has the
    supported version. *)
Theorem C3_version_gate :
  (forall reader st,
      Decode reader = inr st -> Version st <> StateVersion ->
      parseAndValidate reader
      = inl (errorString ("unsupported state version " +:+ fmt.d (Version st))))
  /\ (forall n m, fmt.d n = fmt.d m -> n = m)
  /\ (forall reader data,
        parseAndValidate reader = inr data ->
        Decode reader = inr (State data)
        /\ Version (State data) = StateVersion)
  /\ (forall (w : World) cfg tb,
        outcome w (NewBackend cfg) = Returned tb ->
        Version (State (TerraformBackend.Data tb)) = StateVersion).
Proof.
  split; [|split; [|split]].
  - intros reader st Hd Hv. unfold parseAndValidate. rewrite Hd.
    apply Z.eqb_neq in Hv. rewrite Hv. reflexivity.
  - apply fmt_d_inj.
  - intros reader data H. split; [|eauto using parseAndValidate_version].
    unfold parseAndValidate in H.
    destruct (Decode reader) as [err|st]; [discriminate|].
    destruct (negb (Version st =? StateVersion)); [discriminate|].
    injection H as <-. reflexivity.
  - intros w cfg tb. unfold outcome, NewBackend.
    destruct (String.eqb (BackendConfigBlock.BackendType cfg) "local").
    { rewrite run_bind_Return. unfold NewLocalTerraformBackend.
      rewrite run_bind.
      destruct (run w (decodeLocalBackendConfig cfg)) as [t [b|err|v]];
        try discriminate.
      pose proof (resolveLocal_Returned w cfg b tb) as Hr. unfold outcome in Hr.
      destruct (run w (resolveLocal cfg b)). exact Hr. }
    destruct (String.eqb (BackendConfigBlock.BackendType cfg) "s3").
    { rewrite run_bind_Return. unfold NewS3TerraformBackend.
      rewrite run_bind.
      destruct (run w (decodeS3BackendConfig cfg)) as [t [b|err|v]];
        try discriminate.
      pose proof (resolveS3_Returned w cfg b tb) as Hr. unfold outcome in Hr.
      destruct (run w (resolveS3 cfg b)). exact Hr. }
    discriminate.
Qed.

(** ** The factory: claim C4 *)

(** C4.  For a backend type other than "local" and "s3", [NewBackend] is the
    bare [return nil, errors.New("unsupported backend")]: nothing of the
    block is decoded, and in every world the run makes no call. *)
Theorem C4_unsupported_backend (cfg : BackendConfigBlock.t) :
  BackendConfigBlock.BackendType cfg <> "local" ->
  BackendConfigBlock.BackendType cfg <> "s3" ->
  NewBackend cfg = Fail (errors.New "unsupported backend")
  /\ forall w : World,
       run w (NewBackend cfg) = ([], Failed (errors.New "unsupported backend")).
Proof.
  intros Hl Hs. apply String.eqb_neq in Hl, Hs.
  assert (H : NewBackend cfg = Fail (errors.New "unsupported backend")).
  { unfold NewBackend. rewrite Hl, Hs. reflexivity. }
  split; [exact H|]. intros w. rewrite H. reflexivity.
Qed.

(** ** The local strategy: claim C7 *)

(** C7.  Let a local resolve have decoded its configuration to [b].  If the
    file at [Path b] cannot be opened, the resolve makes that one call and
    fails with "failed to read tfstate from " followed by the path.  If it
    opens and holds a document of the supported version, the resolve closes
    the file and returns the backend of type [LOCAL], named as the
    configuration block is, with that document.  [NewBackend] on a block of
    type "local" runs as this strategy does. *)
Theorem C7_local_resolve (w : World) (config : BackendConfigBlock.t)
    (b : LocalBackendConfig) :
  decodeLocalBackendConfig config = Return b ->
  (forall err,
      w (os_Open (Path b)) = inl err ->
      run w (NewLocalTerraformBackend config)
      = ([os_Open (Path b)],
         Failed (errorString ("failed to read tfstate from " +:+ Path b))))
  /\ (forall f st,
        w (os_Open (Path b)) = inr f ->
        Decode (Content f) = inr st ->
        Version st = StateVersion ->
        run w (NewLocalTerraformBackend config)
        = ([os_Open (Path b); File_Close f],
           Returned (TerraformBackend.mk LOCAL
                       (BackendConfigBlock.BackendName config)
                       (mkTerraformData st))))
  /\ (BackendConfigBlock.BackendType config = "local" ->
      run w (NewBackend config) = run w (NewLocalTerraformBackend config)).
Proof.
  intros Hd. split; [|split]; [| |apply NewBackend_local].
  - intros err Ho. unfold NewLocalTerraformBackend. rewrite Hd.
    unfold resolveLocal. unfold_go. rewrite Ho. reflexivity.
  - intros f st Ho Hdec Hv. unfold NewLocalTerraformBackend. rewrite Hd.
    unfold resolveLocal. unfold_go. rewrite Ho.
    unfold parseAndValidate. rewrite Hdec.
    apply Z.eqb_eq in Hv. rewrite Hv. reflexivity.
Qed.


(** ** The configuration decoders: claims C8, C9 and C10 *)

Lemma Marshal_structAttrs_S3 (b : S3BackendConfig) :
  yaml.Marshal (structAttrs b) = yaml.MarshalStruct b.
Proof.
  unfold yaml.Marshal, structAttrs, yaml.MarshalStruct. cbn.
  destruct (String.eqb (RoleArn b) "");
    rewrite ?fmap_insert, fmap_empty; reflexivity.
Qed.

Lemma Unmarshal_MarshalStruct_S3 (b : S3BackendConfig) :
  yaml.Unmarshal (yaml.MarshalStruct b) (zero : S3BackendConfig) = (b, None).
Proof.
  destruct b as [bucket key region role].
  unfold yaml.Unmarshal, yaml.MarshalStruct. cbn.
  destruct (String.eqb role "") eqn:Hrole.
  - apply String.eqb_eq in Hrole. subst role.
    repeat (rewrite ?lookup_insert_eq, ?lookup_empty;
            rewrite ?lookup_insert_ne by discriminate; cbn).
    reflexivity.
  - repeat (rewrite ?lookup_insert_eq, ?lookup_empty;
            rewrite ?lookup_insert_ne by discriminate; cbn).
    reflexivity.
Qed.


(** C9.  Let the format tag be [ConfigHCL].  If [ConfigAttrsHCL] holds no
    [hcl.Body] (it is nil or of another dynamic type), the type assertion of
    either strategy panics: the strategy makes no call and returns no error.
    The decode-error return of either strategy is reached only when the field
    holds a body for which [gohcl.DecodeBody] reports diagnostics. *)
Theorem C9_type_assertion_panics (config : BackendConfigBlock.t) :
  BackendConfigBlock.format config = cqproto.ConfigHCL ->
  ((forall body, BackendConfigBlock.ConfigAttrsHCL config <> bodyInterface body) ->
   exists v,
     decodeS3BackendConfig config = Panic v
     /\ decodeLocalBackendConfig config = Panic v
     /\ forall w : World,
         run w (NewS3TerraformBackend config) = ([], Panicked v)
         /\ run w (NewLocalTerraformBackend config) = ([], Panicked v))
  /\ (forall err,
        decodeS3BackendConfig config = Fail err ->
        exists body,
          BackendConfigBlock.ConfigAttrsHCL config = bodyInterface body
          /\ snd (gohcl.DecodeBody body (zero : S3BackendConfig)) <> []
          /\ err = errors.New "cannot parse s3 backend config")
  /\ (forall err,
        decodeLocalBackendConfig config = Fail err ->
        exists body,
          BackendConfigBlock.ConfigAttrsHCL config = bodyInterface body
          /\ snd (gohcl.DecodeBody body (zero : LocalBackendConfig)) <> []
          /\ err = errors.New "cannot parse local backend config").
Proof.
  intros Hf.
  unfold NewS3TerraformBackend, NewLocalTerraformBackend,
    decodeS3BackendConfig, decodeLocalBackendConfig.
  rewrite Hf. cbn [Z.eqb cqproto.ConfigHCL].
  destruct (BackendConfigBlock.ConfigAttrsHCL config) as [|body|v];
    cbn [assertBody].
  - split; [|split; intros err H; discriminate].
    intros _. eexists. repeat split.
  - split; [intros H; destruct (H body eq_refl)|].
    split; intros err H; exists body; split; try reflexivity.
    + destruct (gohcl.DecodeBody body (zero : S3BackendConfig)) as [b' [|d ds]];
        [discriminate|]. injection H as <-. split; [discriminate|reflexivity].
    + destruct (gohcl.DecodeBody body (zero : LocalBackendConfig)) as [b' [|d ds]];
        [discriminate|]. injection H as <-. split; [discriminate|reflexivity].
  - split; [|split; intros err H; discriminate].
    intros _. eexists. repeat split.
Qed.


(** C10.  Whatever the format tag is, as long as it is not [ConfigHCL]
    (so [ConfigYAML], and every other integer), both strategies fill their
    struct by marshalling [ConfigAttrsYAML] and unmarshalling the result;
    the block behaves as the same block tagged [ConfigYAML] does, whatever
    [ConfigAttrsHCL] holds. *)
Theorem C10_yaml_is_default (config : BackendConfigBlock.t) :
  BackendConfigBlock.format config <> cqproto.ConfigHCL ->
  decodeS3BackendConfig config
  = match yaml.Unmarshal
            (yaml.Marshal (BackendConfigBlock.ConfigAttrsYAML config))
            (zero : S3BackendConfig) with
    | (_, Some err) => Fail (fmt.Errorf_w "cannot parse s3 backend config: " err)
    | (b, None) => Return b
    end
  /\ decodeLocalBackendConfig config
     = match yaml.Unmarshal
               (yaml.Marshal (BackendConfigBlock.ConfigAttrsYAML config))
               (zero : LocalBackendConfig) with
       | (_, Some err) =>
           Fail (fmt.Errorf_w "cannot parse local backend config: " err)
       | (b, None) => Return b
       end
  /\ forall attrsHCL,
       let tagged :=
         BackendConfigBlock.mk
           (BackendConfigBlock.BackendName config)
           (BackendConfigBlock.BackendType config)
           attrsHCL
           (BackendConfigBlock.ConfigAttrsYAML config)
           cqproto.ConfigYAML in
       NewS3TerraformBackend config = NewS3TerraformBackend tagged
       /\ NewLocalTerraformBackend config = NewLocalTerraformBackend tagged
       /\ NewBackend config = NewBackend tagged.
Proof.
  intros Hf. apply Z.eqb_neq in Hf.
  assert (Hs : forall attrsHCL,
             NewS3TerraformBackend config
             = NewS3TerraformBackend
                 (BackendConfigBlock.mk
                    (BackendConfigBlock.BackendName config)
                    (BackendConfigBlock.BackendType config)
                    attrsHCL
                    (BackendConfigBlock.ConfigAttrsYAML config)
                    cqproto.ConfigYAML)).
  { intros attrsHCL. unfold NewS3TerraformBackend, decodeS3BackendConfig.
    rewrite Hf. reflexivity. }
  assert (Hl : forall attrsHCL,
             NewLocalTerraformBackend config
             = NewLocalTerraformBackend
                 (BackendConfigBlock.mk
                    (BackendConfigBlock.BackendName config)
                    (BackendConfigBlock.BackendType config)
                    attrsHCL
                    (BackendConfigBlock.ConfigAttrsYAML config)
                    cqproto.ConfigYAML)).
  { intros attrsHCL. unfold NewLocalTerraformBackend, decodeLocalBackendConfig.
    rewrite Hf. reflexivity. }
  unfold decodeS3BackendConfig, decodeLocalBackendConfig. rewrite Hf.
  split; [reflexivity|]. split; [reflexivity|].
  intros attrsHCL.
  split; [apply Hs|]. split; [apply Hl|].
  unfold NewBackend. cbn [BackendConfigBlock.BackendType].
  rewrite <- (Hs attrsHCL), <- (Hl attrsHCL). reflexivity.
Qed.

(** ** The S3 strategy: claims C5 and C6 *)

Lemma cut_Some s h t : arn.cut s = (h, Some t) -> s = h +:+ ":" +:+ t.
Proof.
  revert h. induction s as [|c s IH]; intros h; cbn; [discriminate|].
  destruct (Ascii.eqb_spec c ":") as [->|Hc].
  - intros [= <- <-]. reflexivity.
  - destruct (arn.cut s) as [h' t']. intros [= <- ->].
    change (String c s = String c (h' +:+ ":" +:+ t)).
    f_equal. apply IH. reflexivity.
Qed.

(** A parsed ARN prints back as the string it was parsed from. *)
Lemma arn_String_Parse s a : arn.Parse s = inr a -> arn.String a = s.
Proof.
  unfold arn.Parse.
  destruct (arn.HasPrefix s "arn:") eqn:Hp; cbn [negb]; [|discriminate].
  unfold arn.HasPrefix in Hp. apply String.eqb_eq in Hp.
  destruct s as [|c1 [|c2 [|c3 [|c4 rest]]]]; try discriminate.
  cbn in Hp. injection Hp as -> -> -> ->.
  cbn [arn.SplitN arn.cut Ascii.eqb Bool.eqb].
  destruct (arn.cut rest) as [p [t1|]] eqn:E1; [|discriminate].
  destruct (arn.cut t1) as [sv [t2|]] eqn:E2; [|discriminate].
  destruct (arn.cut t2) as [rg [t3|]] eqn:E3; [|discriminate].
  destruct (arn.cut t3) as [ac [t4|]] eqn:E4; [|discriminate].
  intros [= <-]. unfold arn.String. cbn.
  apply cut_Some in E1, E2, E3, E4. subst. reflexivity.
Qed.


Lemma NewS3_decoded config b :
  decodeS3BackendConfig config = Return b ->
  NewS3TerraformBackend config = resolveS3 config b.
Proof. unfold NewS3TerraformBackend. intros ->. reflexivity. Qed.

Lemma NewLocal_decoded config b :
  decodeLocalBackendConfig config = Return b ->
  NewLocalTerraformBackend config = resolveLocal config b.
Proof. unfold NewLocalTerraformBackend. intros ->. reflexivity. Qed.

(** Closing the cases of a run: membership in a short concrete trace. *)
Ltac close_case w :=
  repeat (subst;
          cbn [In List.filter isDiscovery isFetch beforeFetch length] in *;
          match goal with
          | H : _ \/ _ |- _ => destruct H
          | H : _ /\ _ |- _ => destruct H
          | H : False |- _ => destruct H
          | H : ?x = ?x |- _ => clear H
          | H : true = false |- _ => discriminate H
          | H : false = true |- _ => discriminate H
          | H : @eq Event _ _ |- _ =>
              first [discriminate H | injection H; clear H; intros]
          | H : inl _ = inr _ |- _ => discriminate H
          | H : inr _ = inl _ |- _ => discriminate H
          | H : inl _ = inl _ |- _ => injection H; clear H; intros
          | H : inr _ = inr _ |- _ => injection H; clear H; intros
          | H : Some _ = None |- _ => discriminate H
          | H : None = Some _ |- _ => discriminate H
          | H : Some _ = Some _ |- _ => injection H; clear H; intros
          | H1 : w ?e = _, H2 : w ?e = _ |- _ => rewrite H1 in H2
          end);
  subst;
  cbn [In List.filter isDiscovery isFetch beforeFetch length] in *;
  try solve [eauto | congruence | lia].

(** C5.  Let an S3 resolve have decoded its configuration to [b].
    With an empty [Region b]: every bucket-region lookup of the run is
    [GetBucketRegion] on [Bucket b] with the region hint "us-east-1"; the run
    makes at most one; whenever the run gets to fetch the object, exactly one
    lookup has been made before the fetch; a lookup that fails ends the
    resolve with its error, without a fetch; and once the session the lookup
    goes through exists (otherwise [session.Must] panics ahead of it), the
    run makes exactly one lookup.
    With a non-empty [Region b] the run makes no lookup. *)
Theorem C5_region_discovery (w : World) (config : BackendConfigBlock.t)
    (b : S3BackendConfig) :
  decodeS3BackendConfig config = Return b ->
  (Region b = "" ->
   (forall e, In e (trace w (NewS3TerraformBackend config)) ->
              isDiscovery e = true ->
              exists c, e = s3manager_GetBucketRegion c (Bucket b) "us-east-1")
   /\ (length (List.filter isDiscovery (trace w (NewS3TerraformBackend config)))
       <= 1)%nat
   /\ (forall pre,
         beforeFetch (trace w (NewS3TerraformBackend config)) = Some pre ->
         length (List.filter isDiscovery pre) = 1%nat)
   /\ (forall c bucket hint err,
         In (s3manager_GetBucketRegion c bucket hint)
            (trace w (NewS3TerraformBackend config)) ->
         w (s3manager_GetBucketRegion c bucket hint) = inl err ->
         outcome w (NewS3TerraformBackend config) = Failed err
         /\ List.filter isFetch (trace w (NewS3TerraformBackend config)) = [])
   /\ (forall c,
         w session_NewSession = inr c ->
         length (List.filter isDiscovery (trace w (NewS3TerraformBackend config)))
         = 1%nat))
  /\ (Region b <> "" ->
      List.filter isDiscovery (trace w (NewS3TerraformBackend config)) = []).
Proof.
  intros Hd. rewrite (NewS3_decoded _ _ Hd).
  unfold resolveS3. split.
  - intros Hr. rewrite Hr. cbn [String.eqb].
    explore w; repeat split; intros; close_case w.
  - intros Hr. apply String.eqb_neq in Hr. rewrite Hr.
    explore w; close_case w.
Qed.



(** ** Decode failures: claim C1 *)

Lemma decodeField_Marshal {T} (attrs : gmap string Dynamic) (f : Field T)
    (x : T) (errs : list string) :
  get f x = "" -> set f "" x = x ->
  match yamlField attrs (yamlKey f) with
  | Some v => yaml.decodeField (yaml.Marshal attrs) (x, errs) f
              = (set f v x, (errs ++ [])%list)
  | None => exists msg, yaml.decodeField (yaml.Marshal attrs) (x, errs) f
                        = (x, (errs ++ [msg])%list)
  end.
Proof.
  intros Hg Hs. unfold yamlField, yaml.decodeField, yaml.Marshal.
  rewrite lookup_fmap. cbn [fst snd]. rewrite Hg.
  destruct (attrs !! yamlKey f) as [[]|]; cbn;
    rewrite ?Hs, ?app_nil_r; eauto.
Qed.

Ltac yaml_field attrs :=
  match goal with
  | |- context [yaml.decodeField (yaml.Marshal attrs) (?x, ?errs) ?f] =>
      let H := fresh in
      let k := eval cbn in (yamlKey f) in
      pose proof (decodeField_Marshal attrs f x errs eq_refl eq_refl) as H;
      cbn [yamlKey] in H;
      destruct (yamlField attrs k) eqn:?;
      [rewrite H | destruct H as [? H]; rewrite H];
      clear H; cbn [set app Bucket Key Region RoleArn Path]
  end.

Lemma decodeS3_yaml (config : BackendConfigBlock.t) :
  BackendConfigBlock.format config <> cqproto.ConfigHCL ->
  decodeS3BackendConfig config
  = match yamlField (BackendConfigBlock.ConfigAttrsYAML config) "bucket",
          yamlField (BackendConfigBlock.ConfigAttrsYAML config) "key",
          yamlField (BackendConfigBlock.ConfigAttrsYAML config) "region",
          yamlField (BackendConfigBlock.ConfigAttrsYAML config) "role_arn" with
    | Some bucket, Some key, Some region, Some role =>
        Return (mkS3BackendConfig bucket key region role)
    | _, _, _, _ =>
        Fail (fmt.Errorf_w "cannot parse s3 backend config: "
                (errorString "yaml: unmarshal errors"))
    end.
Proof.
  intros Hf. apply Z.eqb_neq in Hf.
  unfold decodeS3BackendConfig. rewrite Hf.
  generalize (BackendConfigBlock.ConfigAttrsYAML config) as attrs. intros attrs.
  unfold yaml.Unmarshal. cbn [fields S3BackendConfig_tags fold_left zero].
  repeat yaml_field attrs; reflexivity.
Qed.

Lemma decodeLocal_yaml (config : BackendConfigBlock.t) :
  BackendConfigBlock.format config <> cqproto.ConfigHCL ->
  decodeLocalBackendConfig config
  = match yamlField (BackendConfigBlock.ConfigAttrsYAML config) "path" with
    | Some path => Return (mkLocalBackendConfig path)
    | None =>
        Fail (fmt.Errorf_w "cannot parse local backend config: "
                (errorString "yaml: unmarshal errors"))
    end.
Proof.
  intros Hf. apply Z.eqb_neq in Hf.
  unfold decodeLocalBackendConfig. rewrite Hf.
  generalize (BackendConfigBlock.ConfigAttrsYAML config) as attrs. intros attrs.
  unfold yaml.Unmarshal. cbn [fields LocalBackendConfig_tags fold_left zero].
  repeat yaml_field attrs; reflexivity.
Qed.

(** Diagnostics are only ever appended to. *)
Lemma decodeAttribute_keeps {T} (body : hcl.Body) (fs : list (Field T))
    (acc : T * hcl.Diagnostics) :
  snd acc <> [] -> snd (fold_left (gohcl.decodeAttribute body) fs acc) <> [].
Proof.
  revert acc. induction fs as [|f fs IH]; intros acc Hacc; [exact Hacc|].
  cbn [fold_left]. apply IH. unfold gohcl.decodeAttribute.
  destruct (hcl.Attributes body !! hclName f) as [expr|]; [|exact Hacc].
  destruct (gohcl.DecodeExpression expr); cbn [snd]; [exact Hacc|].
  destruct (snd acc); [congruence|discriminate].
Qed.

(** A body that lacks an attribute the struct's tag does not mark optional
    is reported by [gohcl.DecodeBody]. *)
Lemma DecodeBody_missing {T} `{Tagged T} (body : hcl.Body) (out : T)
    (f : Field T) :
  In f fields -> hclOptional f = false ->
  hcl.Attributes body !! hclName f = None ->
  snd (gohcl.DecodeBody body out) <> [].
Proof.
  intros Hin Hopt Habs. unfold gohcl.DecodeBody.
  apply decodeAttribute_keeps. cbn [snd]. unfold gohcl.Content.
  assert (Hf : In f (List.filter
                       (fun f => negb (hclOptional f)
                                 && bool_decide (hcl.Attributes body !! hclName f = None))
                       fields)).
  { apply filter_In. split; [exact Hin|].
    rewrite Hopt. cbn. apply bool_decide_eq_true. exact Habs. }
  destruct (List.filter _ fields) as [|g gs]; [destruct Hf|]. discriminate.
Qed.


Lemma NewS3_decode_fails w config err :
  decodeS3BackendConfig config = Fail err ->
  run w (NewS3TerraformBackend config) = ([], Failed err).
Proof. unfold NewS3TerraformBackend. intros ->. reflexivity. Qed.

Lemma NewLocal_decode_fails w config err :
  decodeLocalBackendConfig config = Fail err ->
  run w (NewLocalTerraformBackend config) = ([], Failed err).
Proof. unfold NewLocalTerraformBackend. intros ->. reflexivity. Qed.


(** ** Beyond the claims: the factory and the strategies as a whole *)

(** Decoding a configuration makes no call. *)
Lemma decodeS3_pure config :
  (exists b, decodeS3BackendConfig config = Return b)
  \/ (exists err, decodeS3BackendConfig config = Fail err)
  \/ (exists v, decodeS3BackendConfig config = Panic v).
Proof.
  unfold decodeS3BackendConfig.
  destruct (BackendConfigBlock.format config =? cqproto.ConfigHCL).
  - destruct (BackendConfigBlock.ConfigAttrsHCL config) as [|body|v];
      cbn [assertBody]; eauto.
    destruct (gohcl.DecodeBody body _) as [b [|d ds]]; eauto.
  - cbv zeta. destruct (yaml.Unmarshal _ _) as [b [err|]]; eauto.
Qed.

Lemma decodeLocal_pure config :
  (exists b, decodeLocalBackendConfig config = Return b)
  \/ (exists err, decodeLocalBackendConfig config = Fail err)
  \/ (exists v, decodeLocalBackendConfig config = Panic v).
Proof.
  unfold decodeLocalBackendConfig.
  destruct (BackendConfigBlock.format config =? cqproto.ConfigHCL).
  - destruct (BackendConfigBlock.ConfigAttrsHCL config) as [|body|v];
      cbn [assertBody]; eauto.
    destruct (gohcl.DecodeBody body _) as [b [|d ds]]; eauto.
  - cbv zeta. destruct (yaml.Unmarshal _ _) as [b [err|]]; eauto.
Qed.

Lemma NewBackend_dispatch w cfg : Dispatch w cfg.
Proof.
  destruct (String.eqb_spec (BackendConfigBlock.BackendType cfg) "local") as [Hl|Hl].
  { pose proof (NewBackend_local w cfg Hl) as Hrun.
    unfold NewLocalTerraformBackend in Hrun.
    destruct (decodeLocal_pure cfg) as [[b Hd]|[[err Hd]|[v Hd]]];
      rewrite Hd in Hrun; eauto using Dispatch. }
  destruct (String.eqb_spec (BackendConfigBlock.BackendType cfg) "s3") as [Hs|Hs].
  { pose proof (NewBackend_s3 w cfg Hs) as Hrun.
    unfold NewS3TerraformBackend in Hrun.
    destruct (decodeS3_pure cfg) as [[b Hd]|[[err Hd]|[v Hd]]];
      rewrite Hd in Hrun; eauto using Dispatch. }
  apply dispatch_unsupported; try assumption.
  unfold NewBackend.
  apply String.eqb_neq in Hl, Hs. rewrite Hl, Hs. reflexivity.
Qed.

(** Closing the cases of a run whose statement speaks of the whole trace. *)
Ltac run_cases w :=
  explore w; repeat split; intros; close_case w.

Lemma resolveLocal_echo w config b tb :
  outcome w (resolveLocal config b) = Returned tb ->
  TerraformBackend.BackendType tb = LOCAL
  /\ TerraformBackend.BackendName tb = BackendConfigBlock.BackendName config.
Proof.
  unfold resolveLocal. explore w; try discriminate.
  intros [= <-]. split; reflexivity.
Qed.

Lemma resolveS3_echo w config b tb :
  outcome w (resolveS3 config b) = Returned tb ->
  TerraformBackend.BackendType tb = S3
  /\ TerraformBackend.BackendName tb = BackendConfigBlock.BackendName config.
Proof.
  unfold resolveS3. explore w; try discriminate;
    intros [= <-]; split; reflexivity.
Qed.

(** X1.  A backend that [NewBackend] returns, in any world, carries the
    type and the name of the configuration block it was asked for, and that
    type is "local" or "s3". *)
Theorem NewBackend_echoes_type_and_name (w : World)
    (cfg : BackendConfigBlock.t) (tb : TerraformBackend.t) :
  outcome w (NewBackend cfg) = Returned tb ->
  TerraformBackend.BackendType tb = BackendConfigBlock.BackendType cfg
  /\ TerraformBackend.BackendName tb = BackendConfigBlock.BackendName cfg
  /\ (BackendConfigBlock.BackendType cfg = "local"
      \/ BackendConfigBlock.BackendType cfg = "s3").
Proof.
  unfold outcome.
  destruct (NewBackend_dispatch w cfg) as
    [Hl Hs Hrun|err Hk Hd Hrun|v Hk Hd Hrun|b Hk Hd Hrun
     |err Hk Hd Hrun|v Hk Hd Hrun|b Hk Hd Hrun];
    rewrite Hrun; cbn [snd]; try discriminate; intros Hret.
  - destruct (resolveLocal_echo w cfg b tb Hret) as [-> ->].
    rewrite Hk. auto.
  - destruct (resolveS3_echo w cfg b tb Hret) as [-> ->].
    rewrite Hk. auto.
Qed.

Lemma resolveLocal_no_panic w config b v :
  outcome w (resolveLocal config b) <> Panicked v.
Proof. unfold resolveLocal. explore w; discriminate. Qed.

Lemma resolveS3_panic w config b v :
  outcome w (resolveS3 config b) = Panicked v ->
  Region b = ""
  /\ exists err, w session_NewSession = inl err /\ v = Error err
                 /\ trace w (resolveS3 config b) = [session_NewSession].
Proof.
  unfold resolveS3.
  destruct (String.eqb_spec (Region b) "") as [Hr|Hr]; [rewrite Hr|];
    explore w; try discriminate.
  intros [= <-]. split; [reflexivity|]. eauto.
Qed.

(** X2.  [NewBackend] panics in two situations only, and in both before
    anything is fetched or opened: the format tag is [ConfigHCL] while
    [ConfigAttrsHCL] holds no [hcl.Body] (no call has been made), or an s3
    configuration has decoded with an empty region and the default session
    for the region lookup cannot be created (that attempt is the only
    call). *)
Theorem NewBackend_panics_only (w : World) (cfg : BackendConfigBlock.t)
    (v : string) :
  outcome w (NewBackend cfg) = Panicked v ->
  (BackendConfigBlock.format cfg = cqproto.ConfigHCL
   /\ (forall body, BackendConfigBlock.ConfigAttrsHCL cfg <> bodyInterface body)
   /\ trace w (NewBackend cfg) = [])
  \/ (BackendConfigBlock.BackendType cfg = "s3"
      /\ exists b err,
          decodeS3BackendConfig cfg = Return b
          /\ Region b = ""
          /\ w session_NewSession = inl err
          /\ v = Error err
          /\ trace w (NewBackend cfg) = [session_NewSession]).
Proof.
  assert (Hdec : forall A (k : hcl.Body -> Go A) (mk : Go A) p,
             (if BackendConfigBlock.format cfg =? cqproto.ConfigHCL
              then assertBody (BackendConfigBlock.ConfigAttrsHCL cfg) k
              else mk) = Panic p ->
             (forall body, exists r, k body = r /\ forall q, r <> Panic q) ->
             (forall q, mk <> Panic q) ->
             BackendConfigBlock.format cfg = cqproto.ConfigHCL
             /\ forall body,
                 BackendConfigBlock.ConfigAttrsHCL cfg <> bodyInterface body).
  { intros A k mk p H Hk Hmk.
    destruct (Z.eqb_spec (BackendConfigBlock.format cfg) cqproto.ConfigHCL)
      as [Hf|Hf]; [|destruct (Hmk _ H)].
    split; [exact Hf|].
    destruct (BackendConfigBlock.ConfigAttrsHCL cfg) as [|body|d];
      try discriminate.
    cbn [assertBody] in H. destruct (Hk body) as [r [<- Hr]].
    destruct (Hr _ H). }
  unfold outcome, trace.
  destruct (NewBackend_dispatch w cfg) as
    [Hl Hs Hrun|err Hk Hd Hrun|p Hk Hd Hrun|b Hk Hd Hrun
     |err Hk Hd Hrun|p Hk Hd Hrun|b Hk Hd Hrun];
    rewrite Hrun; cbn [fst snd]; try discriminate; intros Hp.
  - left. unfold decodeLocalBackendConfig in Hd. cbv zeta in Hd.
    apply Hdec in Hd; [tauto| |].
    + intros body. eexists. split; [reflexivity|]. intros q.
      destruct (gohcl.DecodeBody body _) as [b' [|d ds]]; discriminate.
    + intros q. destruct (yaml.Unmarshal _ _) as [b' [e|]]; discriminate.
  - destruct (resolveLocal_no_panic w cfg b v Hp).
  - left. unfold decodeS3BackendConfig in Hd. cbv zeta in Hd.
    apply Hdec in Hd; [tauto| |].
    + intros body. eexists. split; [reflexivity|]. intros q.
      destruct (gohcl.DecodeBody body _) as [b' [|d ds]]; discriminate.
    + intros q. destruct (yaml.Unmarshal _ _) as [b' [e|]]; discriminate.
  - right. split; [exact Hk|].
    destruct (resolveS3_panic w cfg b v Hp) as [Hr [err [Hw [Hv Ht]]]].
    exists b, err. unfold trace in Ht. auto.
Qed.

Lemma resolveLocal_trace w config b :
  trace w (resolveLocal config b)
  = match w (os_Open (Path b)) with
    | inl _ => [os_Open (Path b)]
    | inr f => [os_Open (Path b); File_Close f]
    end.
Proof. unfold resolveLocal. explore w; reflexivity. Qed.

(** X3.  Whatever a local resolve ends with (a backend, a file that is no
    state file, an unsupported version), a file it has opened is closed by
    the time [NewBackend] returns: the run is then exactly the open followed
    by the close of that file.  When the open fails the run is that one
    call, and nothing is closed that was not opened. *)
Theorem local_resolve_closes_its_file (w : World)
    (cfg : BackendConfigBlock.t) :
  BackendConfigBlock.BackendType cfg = "local" ->
  (forall name f,
      In (os_Open name) (trace w (NewBackend cfg)) ->
      w (os_Open name) = inr f ->
      trace w (NewBackend cfg) = [os_Open name; File_Close f])
  /\ (forall name err,
        In (os_Open name) (trace w (NewBackend cfg)) ->
        w (os_Open name) = inl err ->
        trace w (NewBackend cfg) = [os_Open name])
  /\ (forall f,
        In (File_Close f) (trace w (NewBackend cfg)) ->
        exists name,
          w (os_Open name) = inr f
          /\ trace w (NewBackend cfg) = [os_Open name; File_Close f]).
Proof.
  intros Hk. unfold trace.
  destruct (NewBackend_dispatch w cfg) as
    [Hl Hs Hrun|err _ Hd Hrun|p _ Hd Hrun|b _ Hd Hrun
     |err Hk' Hd Hrun|p Hk' Hd Hrun|b Hk' Hd Hrun];
    try congruence; rewrite Hrun; cbn [fst];
    try solve [repeat split; intros; close_case w].
  pose proof (resolveLocal_trace w cfg b) as Ht. unfold trace in Ht.
  rewrite Ht. clear Ht Hrun.
  destruct (w (os_Open (Path b))) as [e|f0] eqn:Ho;
    repeat split; intros; close_case w.
Qed.

Lemma resolveS3_calls w config b :
  Forall (fun e => isFileEvent e = false) (trace w (resolveS3 config b))
  /\ (length (trace w (resolveS3 config b)) <= 4)%nat
  /\ (length (List.filter isFetch (trace w (resolveS3 config b))) <= 1)%nat.
Proof.
  unfold resolveS3. explore w; repeat split;
    try (cbn; lia); repeat constructor.
Qed.

(** X4.  The two strategies keep to their own side.  A run of [NewBackend]
    on a block of type "local" makes at most two calls, both on the
    filesystem; on a block of type "s3" it makes at most four calls, none on
    the filesystem, and fetches at most once (nothing is retried). *)
Theorem strategies_keep_apart (w : World) (cfg : BackendConfigBlock.t) :
  (BackendConfigBlock.BackendType cfg = "local" ->
   Forall (fun e => isFileEvent e = true) (trace w (NewBackend cfg))
   /\ (length (trace w (NewBackend cfg)) <= 2)%nat)
  /\ (BackendConfigBlock.BackendType cfg = "s3" ->
      Forall (fun e => isFileEvent e = false) (trace w (NewBackend cfg))
      /\ (length (trace w (NewBackend cfg)) <= 4)%nat
      /\ (length (List.filter isFetch (trace w (NewBackend cfg))) <= 1)%nat).
Proof.
  unfold trace.
  destruct (NewBackend_dispatch w cfg) as
    [Hl Hs Hrun|err Hk Hd Hrun|p Hk Hd Hrun|b Hk Hd Hrun
     |err Hk Hd Hrun|p Hk Hd Hrun|b Hk Hd Hrun];
    rewrite Hrun; cbn [fst]; split; intros Hk'; try congruence;
    try solve [split; [constructor | cbn; lia]
              |split; [constructor | split; cbn; lia]].
  - pose proof (resolveLocal_trace w cfg b) as Ht. unfold trace in Ht.
    rewrite Ht. destruct (w (os_Open (Path b))); split;
      try (cbn; lia); repeat constructor.
  - apply resolveS3_calls.
Qed.

(** X5.  [NewBackend] adds nothing to the strategy it picks: on a block of
    type "local" (resp. "s3") it makes the calls and has the outcome of
    [NewLocalTerraformBackend] (resp. [NewS3TerraformBackend]) on that
    block. *)
Theorem NewBackend_adds_nothing (w : World) (cfg : BackendConfigBlock.t) :
  (BackendConfigBlock.BackendType cfg = "local" ->
   run w (NewBackend cfg) = run w (NewLocalTerraformBackend cfg))
  /\ (BackendConfigBlock.BackendType cfg = "s3" ->
      run w (NewBackend cfg) = run w (NewS3TerraformBackend cfg)).
Proof. split; [apply NewBackend_local | apply NewBackend_s3]. Qed.

(** ** Beyond the claims: the S3 strategy step by step *)

(** X6.  The session an S3 resolve fetches through is created for one region
    with the shared configuration enabled and no credentials of its own: the
    configured region when there is one, and otherwise the region the bucket
    lookup answered. *)
Theorem s3_session_is_regional (w : World) (config : BackendConfigBlock.t)
    (b : S3BackendConfig) (opts : aws.Options) :
  decodeS3BackendConfig config = Return b ->
  In (session_NewSessionWithOptions opts)
     (trace w (NewS3TerraformBackend config)) ->
  aws.SharedConfigState_ opts = aws.SharedConfigEnable
  /\ aws.Credentials_ (aws.Config_ opts) = None
  /\ exists region,
      aws.Region (aws.Config_ opts) = Some region
      /\ (Region b <> "" -> region = Region b)
      /\ (Region b = "" ->
          exists c,
            w session_NewSession = inr c
            /\ w (s3manager_GetBucketRegion c (Bucket b) "us-east-1")
               = inr region).
Proof.
  intros Hd. rewrite (NewS3_decoded _ _ Hd). unfold resolveS3.
  destruct (String.eqb_spec (Region b) "") as [Hr|Hr].
  - explore w; intros; close_case w;
      (split; [reflexivity|]; split; [reflexivity|];
       eexists; split; [reflexivity|]; split; [congruence|]; eauto).
  - explore w; intros; close_case w;
      (split; [reflexivity|]; split; [reflexivity|];
       eexists; split; [reflexivity|]; split; [reflexivity|]; congruence).
Qed.

(** X7.  The bucket-region lookup of an S3 resolve goes through the
    default session, created by the call just before it; these two calls open
    the run, and they are made only for a configuration without region. *)
Theorem s3_lookup_uses_default_session (w : World)
    (config : BackendConfigBlock.t) (b : S3BackendConfig)
    (c : aws.Session) (bucket hint : string) :
  decodeS3BackendConfig config = Return b ->
  In (s3manager_GetBucketRegion c bucket hint)
     (trace w (NewS3TerraformBackend config)) ->
  Region b = ""
  /\ w session_NewSession = inr c
  /\ exists rest,
      trace w (NewS3TerraformBackend config)
      = session_NewSession :: s3manager_GetBucketRegion c bucket hint :: rest.
Proof.
  intros Hd. rewrite (NewS3_decoded _ _ Hd). unfold resolveS3.
  destruct (String.eqb_spec (Region b) "") as [Hr|Hr].
  - explore w; intros; close_case w;
      (split; [assumption|]; split; [assumption|]; eexists; reflexivity).
  - explore w; intros; close_case w.
Qed.

(** X8.  Every object fetch of an S3 resolve asks for the configured bucket
    and key, through a client bound to the session that
    [NewSessionWithOptions] has just answered, with no region of its own; the
    fetch is the last call of the run. *)
Theorem s3_fetch_target (w : World) (config : BackendConfigBlock.t)
    (b : S3BackendConfig) (svc : aws.S3) (input : aws.GetObjectInput) :
  decodeS3BackendConfig config = Return b ->
  In (S3_GetObject svc input) (trace w (NewS3TerraformBackend config)) ->
  input = aws.mkGetObjectInput (Bucket b) (Key b)
  /\ aws.Region (aws.Overrides svc) = None
  /\ (exists opts,
        In (session_NewSessionWithOptions opts)
           (trace w (NewS3TerraformBackend config))
        /\ w (session_NewSessionWithOptions opts) = inr (aws.Session_ svc))
  /\ exists pre,
      trace w (NewS3TerraformBackend config) = (pre ++ [S3_GetObject svc input])%list
      /\ List.filter isFetch pre = [].
Proof.
  intros Hd. rewrite (NewS3_decoded _ _ Hd). unfold resolveS3.
  explore w; intros; close_case w;
    (split; [reflexivity|]; split; [reflexivity|]; split;
     [eexists; split; [|eassumption]; cbn [In]; eauto 6
     |match goal with
      | |- exists pre, [?a; ?b; ?c; ?d] = _ /\ _ => exists [a; b; c]
      | |- exists pre, [?a; ?b] = _ /\ _ => exists [a]
      end; split; reflexivity]).
Qed.

(** X9.  Without a role ARN the fetch of an S3 resolve carries no
    credentials of its own: it is made with those of the session. *)
Theorem s3_ambient_credentials (w : World) (config : BackendConfigBlock.t)
    (b : S3BackendConfig) (svc : aws.S3) (input : aws.GetObjectInput) :
  decodeS3BackendConfig config = Return b ->
  RoleArn b = "" ->
  In (S3_GetObject svc input) (trace w (NewS3TerraformBackend config)) ->
  aws.Credentials_ (aws.Overrides svc) = None.
Proof.
  intros Hd Hrole. rewrite (NewS3_decoded _ _ Hd). unfold resolveS3.
  apply String.eqb_eq in Hrole.
  explore w; intros; close_case w; reflexivity.
Qed.

(** X10.  Once an S3 resolve has made its fetch, the answer to the fetch
    decides the outcome: the error of the fetch as it is; or, for the body it
    hands back, the error of [parseAndValidate] as it is; or the backend of
    type [S3], named as the configuration block is, with the validated
    document. *)
Theorem s3_outcome_after_fetch (w : World) (config : BackendConfigBlock.t)
    (b : S3BackendConfig) (svc : aws.S3) (input : aws.GetObjectInput) :
  decodeS3BackendConfig config = Return b ->
  In (S3_GetObject svc input) (trace w (NewS3TerraformBackend config)) ->
  outcome w (NewS3TerraformBackend config)
  = match w (S3_GetObject svc input) with
    | inl err => Failed err
    | inr result =>
        match parseAndValidate (aws.Body result) with
        | inl err => Failed err
        | inr terraformData =>
            Returned (TerraformBackend.mk S3
                        (BackendConfigBlock.BackendName config) terraformData)
        end
    end.
Proof.
  intros Hd. rewrite (NewS3_decoded _ _ Hd). unfold resolveS3.
  explore w; intros; close_case w;
    repeat match goal with
           | H : w ?e = _ |- context [w ?e] => rewrite H
           | H : parseAndValidate ?r = _ |- context [parseAndValidate ?r] =>
               cbn [aws.Body]; rewrite H
           end; reflexivity.
Qed.

(** X11.  An S3 resolve surfaces errors as they are: when it fails, its error
    is the error its last call handed back, or the error of [arn.Parse] on the
    role ARN, or the error of [parseAndValidate] on the body it fetched.
    None is wrapped or replaced. *)
Theorem s3_errors_are_verbatim (w : World) (config : BackendConfigBlock.t)
    (b : S3BackendConfig) (err : error) :
  decodeS3BackendConfig config = Return b ->
  outcome w (NewS3TerraformBackend config) = Failed err ->
  (exists pre e,
      trace w (NewS3TerraformBackend config) = (pre ++ [e])%list
      /\ failedWith w e err)
  \/ (RoleArn b <> "" /\ arn.Parse (RoleArn b) = inl err)
  \/ (exists svc input result,
        In (S3_GetObject svc input) (trace w (NewS3TerraformBackend config))
        /\ w (S3_GetObject svc input) = inr result
        /\ parseAndValidate (aws.Body result) = inl err).
Proof.
  intros Hd. rewrite (NewS3_decoded _ _ Hd). unfold resolveS3.
  explore w; intros Hf; try discriminate Hf; injection Hf as <-;
    first
      [ left;
        match goal with
        | |- exists pre e, [?a] = _ /\ _ => exists [], a
        | |- exists pre e, [?a; ?b] = _ /\ _ => exists [a], b
        | |- exists pre e, [?a; ?b; ?c] = _ /\ _ => exists [a; b], c
        | |- exists pre e, [?a; ?b; ?c; ?d] = _ /\ _ => exists [a; b; c], d
        end; split; [reflexivity|cbn [failedWith]; assumption]
      | right; left; split; [apply String.eqb_neq; assumption|reflexivity]
      | right; right; do 3 eexists; split; [cbn [In]; eauto 6|];
        split; eassumption ].
Qed.

(** X12.  When the file a local resolve has opened does not pass
    [parseAndValidate], the resolve closes the file and fails with the error
    of [parseAndValidate] as it is. *)
Theorem local_validation_error_is_verbatim (w : World)
    (config : BackendConfigBlock.t) (b : LocalBackendConfig) (f : File)
    (err : error) :
  decodeLocalBackendConfig config = Return b ->
  w (os_Open (Path b)) = inr f ->
  parseAndValidate (Content f) = inl err ->
  run w (NewLocalTerraformBackend config)
  = ([os_Open (Path b); File_Close f], Failed err).
Proof.
  intros Hd Ho Hp. rewrite (NewLocal_decoded _ _ Hd).
  unfold resolveLocal. unfold_go. rewrite Ho. unfold_go. rewrite Hp.
  reflexivity.
Qed.

(** ** Beyond the claims: the two decoders side by side *)

Lemma filter_none {A} (p : A -> bool) (l : list A) :
  (forall x, In x l -> p x = false) -> List.filter p l = [].
Proof.
  induction l as [|x l IH]; intros H; [reflexivity|].
  cbn [List.filter]. rewrite (H x (or_introl eq_refl)).
  apply IH. intros y Hy. apply H. right. exact Hy.
Qed.

(** A body whose attributes are all declared by the struct has none
    reported as unsupported. *)
Lemma no_unsupported {T} `{Tagged T} (m : gmap string hcl.Expression) :
  (forall k e, m !! k = Some e -> gohcl.declared (T:=T) k = true) ->
  List.filter (fun kv : string * hcl.Expression =>
                 negb (gohcl.declared (T:=T) (fst kv)))
    (map_to_list m) = [].
Proof.
  intros Hdecl. apply filter_none. intros [k e] Hin.
  apply list_elem_of_In, elem_of_map_to_list in Hin.
  cbn [fst]. rewrite (Hdecl k e Hin). reflexivity.
Qed.

Ltac lookups :=
  repeat (rewrite ?lookup_insert_eq, ?lookup_empty;
          rewrite ?lookup_insert_ne by discriminate);
  cbn [gohcl.DecodeExpression set get fst snd].

Lemma decodeAttribute_literal {T} (body : hcl.Body) (f : Field T)
    (acc : T * hcl.Diagnostics) (v : string) :
  hcl.Attributes body !! hclName f = Some (hcl.StringLit v) ->
  gohcl.decodeAttribute body acc f = (set f v (fst acc), snd acc).
Proof. unfold gohcl.decodeAttribute. intros ->. reflexivity. Qed.

Lemma decodeAttribute_absent {T} (body : hcl.Body) (f : Field T)
    (acc : T * hcl.Diagnostics) :
  hcl.Attributes body !! hclName f = None ->
  gohcl.decodeAttribute body acc f = acc.
Proof. unfold gohcl.decodeAttribute. intros ->. reflexivity. Qed.

Ltac attributes :=
  repeat first
    [ erewrite decodeAttribute_literal
        by (cbn [hcl.Attributes hclName]; lookups; reflexivity)
    | rewrite decodeAttribute_absent
        by (cbn [hcl.Attributes hclName]; lookups; reflexivity) ];
  cbn [set fst snd Bucket Key Region RoleArn Path].

Lemma DecodeBody_structBody_S3 (b : S3BackendConfig) :
  gohcl.DecodeBody (structBody b) (zero : S3BackendConfig) = (b, []).
Proof.
  destruct b as [bucket key region role].
  unfold gohcl.DecodeBody, gohcl.Content, structBody.
  cbn [fields S3BackendConfig_tags fold_left hcl.Attributes hcl.Blocks
       hclOptional hclName get andb Bucket Key Region RoleArn List.map app].
  rewrite no_unsupported.
  2:{ intros k e.
      destruct (String.eqb role "");
        repeat (rewrite lookup_insert; case_decide; [subst; reflexivity|]);
        rewrite lookup_empty; discriminate. }
  cbn [List.map app List.filter negb andb].
  destruct (String.eqb_spec role "") as [->|Hrole].
  - lookups. rewrite !bool_decide_eq_false_2 by discriminate.
    cbn [List.map app]. attributes. reflexivity.
  - lookups. rewrite !bool_decide_eq_false_2 by discriminate.
    cbn [List.map app]. attributes. reflexivity.
Qed.

Lemma DecodeBody_structBody_Local (b : LocalBackendConfig) :
  gohcl.DecodeBody (structBody b) (zero : LocalBackendConfig) = (b, []).
Proof.
  destruct b as [path].
  unfold gohcl.DecodeBody, gohcl.Content, structBody.
  cbn [fields LocalBackendConfig_tags fold_left hcl.Attributes hcl.Blocks
       hclOptional hclName get andb Path List.map app].
  rewrite no_unsupported.
  2:{ intros k e.
      repeat (rewrite lookup_insert; case_decide; [subst; reflexivity|]);
        rewrite lookup_empty; discriminate. }
  cbn [List.map app List.filter negb andb].
  lookups. rewrite !bool_decide_eq_false_2 by discriminate.
  cbn [List.map app]. attributes. reflexivity.
Qed.


Lemma decodeAttribute_unsuitable {T} (body : hcl.Body) (fs : list (Field T))
    (acc : T * hcl.Diagnostics) (f : Field T) (e : hcl.Expression) :
  In f fs ->
  hcl.Attributes body !! hclName f = Some e ->
  gohcl.DecodeExpression e = None ->
  snd (fold_left (gohcl.decodeAttribute body) fs acc) <> [].
Proof.
  revert acc. induction fs as [|g fs IH]; intros acc Hin He Hd;
    [destruct Hin|].
  cbn [fold_left]. destruct Hin as [->|Hin]; [|eauto].
  apply decodeAttribute_keeps. unfold gohcl.decodeAttribute.
  rewrite He, Hd. cbn [snd]. destruct (snd acc); discriminate.
Qed.

(** What [gohcl.DecodeBody] reports: an attribute the struct does not
    declare, a nested block, or a declared attribute whose value is no
    string, number or boolean. *)
Lemma DecodeBody_strict {T} `{Tagged T} (body : hcl.Body) (out : T) :
  (exists k e, hcl.Attributes body !! k = Some e
               /\ gohcl.declared (T:=T) k = false)
  \/ hcl.Blocks body <> []
  \/ (exists f e, In f fields
                  /\ hcl.Attributes body !! hclName f = Some e
                  /\ gohcl.DecodeExpression e = None) ->
  snd (gohcl.DecodeBody body out) <> [].
Proof.
  unfold gohcl.DecodeBody. intros [[k [e [Hk Hdecl]]]|[Hb|[f [e [Hin [He Hd]]]]]].
  - apply decodeAttribute_keeps. cbn [snd]. unfold gohcl.Content.
    assert (Hin : In (k, e)
                    (List.filter
                       (fun kv : string * hcl.Expression =>
                          negb (gohcl.declared (T:=T) (fst kv)))
                       (map_to_list (hcl.Attributes body)))).
    { apply filter_In. split.
      - apply list_elem_of_In, elem_of_map_to_list. exact Hk.
      - cbn [fst]. rewrite Hdecl. reflexivity. }
    destruct (List.filter _ (map_to_list _)) as [|x xs]; [destruct Hin|].
    intros Happ. apply app_eq_nil in Happ as [_ Happ].
    apply app_eq_nil in Happ as [Happ _]. discriminate.
  - apply decodeAttribute_keeps. cbn [snd]. unfold gohcl.Content.
    destruct (hcl.Blocks body) as [|x xs]; [congruence|].
    intros Happ. apply app_eq_nil in Happ as [_ Happ].
    apply app_eq_nil in Happ as [_ Happ]. discriminate.
  - eapply decodeAttribute_unsuitable; eassumption.
Qed.

(** X14.  HCL decoding is strict.  A body with an attribute the struct does
    not declare, with a nested block, or with a declared attribute whose value
    is not a string, a number or a boolean (a null, a collection, a
    reference to a variable) makes the resolve fail with the decode error, in
    every world before any call. *)
Theorem hcl_decoding_is_strict (w : World) (config : BackendConfigBlock.t)
    (body : hcl.Body) :
  BackendConfigBlock.format config = cqproto.ConfigHCL ->
  BackendConfigBlock.ConfigAttrsHCL config = bodyInterface body ->
  (BackendConfigBlock.BackendType config = "s3" ->
   (exists k e, hcl.Attributes body !! k = Some e
                /\ gohcl.declared (T:=S3BackendConfig) k = false)
   \/ hcl.Blocks body <> []
   \/ (exists (f : Field S3BackendConfig) e,
         In f fields
         /\ hcl.Attributes body !! hclName f = Some e
         /\ gohcl.DecodeExpression e = None) ->
   run w (NewBackend config)
   = ([], Failed (errors.New "cannot parse s3 backend config")))
  /\ (BackendConfigBlock.BackendType config = "local" ->
      (exists k e, hcl.Attributes body !! k = Some e
                   /\ gohcl.declared (T:=LocalBackendConfig) k = false)
      \/ hcl.Blocks body <> []
      \/ (exists (f : Field LocalBackendConfig) e,
            In f fields
            /\ hcl.Attributes body !! hclName f = Some e
            /\ gohcl.DecodeExpression e = None) ->
      run w (NewBackend config)
      = ([], Failed (errors.New "cannot parse local backend config"))).
Proof.
  intros Hf Hb. split; intros Hk Hbad.
  - rewrite (NewBackend_s3 _ _ Hk). apply NewS3_decode_fails.
    unfold decodeS3BackendConfig. rewrite Hf, Hb.
    cbn [Z.eqb cqproto.ConfigHCL assertBody].
    pose proof (DecodeBody_strict body (zero : S3BackendConfig) Hbad) as Hd.
    destruct (gohcl.DecodeBody body (zero : S3BackendConfig)) as [b' [|d ds]];
      [destruct (Hd eq_refl)|reflexivity].
  - rewrite (NewBackend_local _ _ Hk). apply NewLocal_decode_fails.
    unfold decodeLocalBackendConfig. rewrite Hf, Hb.
    cbn [Z.eqb cqproto.ConfigHCL assertBody].
    pose proof (DecodeBody_strict body (zero : LocalBackendConfig) Hbad) as Hd.
    destruct (gohcl.DecodeBody body (zero : LocalBackendConfig)) as [b' [|d ds]];
      [destruct (Hd eq_refl)|reflexivity].
Qed.


End Backend.

(** ** The claims at concrete inputs *)





Lemma C3_witness :
  parseAndValidate 4 oldState
  = inl (errorString "unsupported state version 3").
Proof.
  apply (proj1 (C3_version_gate 4) oldState (mkStateDocument 3 []));
    [reflexivity | discriminate].
Defined.

Lemma C4_witness :
  run sampleWorld (NewBackend 4 (yamlBlock "gcs" noRegion))
  = ([], Failed (errors.New "unsupported backend")).
Proof.
  apply (C4_unsupported_backend 4 (yamlBlock "gcs" noRegion)); discriminate.
Defined.

Lemma C5_witness :
  length (List.filter isDiscovery
            (trace sampleWorld (NewS3TerraformBackend 4 (yamlBlock "s3" noRegion))))
  = 1%nat
  /\ outcome lookupFails (NewS3TerraformBackend 4 (yamlBlock "s3" noRegion))
     = Failed (errorString "NotFound: bucket").
Proof.
  split.
  - apply (proj2 (proj2 (proj2 (proj2
             (proj1 (C5_region_discovery 4 sampleWorld (yamlBlock "s3" noRegion)
                       (mkS3BackendConfig "b" "tf/state" "" "") eq_refl)
                eq_refl))))
             (aws.mkSession 0) eq_refl).
  - apply (proj1 (proj1 (proj2 (proj2 (proj2
             (proj1 (C5_region_discovery 4 lookupFails (yamlBlock "s3" noRegion)
                       (mkS3BackendConfig "b" "tf/state" "" "") eq_refl)
                eq_refl))))
             (aws.mkSession 0) "b" "us-east-1"
             (errorString "NotFound: bucket")
             ltac:(right; left; reflexivity) eq_refl)).
Defined.


Lemma C7_witness :
  run sampleWorld (NewLocalTerraformBackend 4 (yamlBlock "local" (localAt "nope")))
  = ([os_Open "nope"],
     Failed (errorString "failed to read tfstate from nope"))
  /\ run sampleWorld
       (NewLocalTerraformBackend 4 (yamlBlock "local" (localAt "terraform.tfstate")))
     = ([os_Open "terraform.tfstate";
         File_Close (mkFile "terraform.tfstate" sampleState)],
        Returned
          (TerraformBackend.mk LOCAL "state"
             (mkTerraformData
                (mkStateDocument 4 [("serial", json.Num (json.Integer 7))])))).
Proof.
  split.
  - apply (proj1 (C7_local_resolve 4 sampleWorld
                    (yamlBlock "local" (localAt "nope"))
                    (mkLocalBackendConfig "nope") eq_refl)
             (errorString "open: no such file or directory")).
    reflexivity.
  - apply (proj1 (proj2 (C7_local_resolve 4 sampleWorld
                    (yamlBlock "local" (localAt "terraform.tfstate"))
                    (mkLocalBackendConfig "terraform.tfstate") eq_refl))
             (mkFile "terraform.tfstate" sampleState)
             (mkStateDocument 4 [("serial", json.Num (json.Integer 7))]));
      reflexivity.
Defined.


Lemma C9_witness :
  exists v,
    forall w : World,
      run w (NewS3TerraformBackend 4
               (BackendConfigBlock.mk "state" "s3" (otherInterface (dString "x"))
                  noRegion cqproto.ConfigHCL))
      = ([], Panicked v).
Proof.
  destruct (proj1 (C9_type_assertion_panics 4
                     (BackendConfigBlock.mk "state" "s3"
                        (otherInterface (dString "x")) noRegion cqproto.ConfigHCL)
                     eq_refl))
    as [v [_ [_ Hv]]].
  - intros body. discriminate.
  - exists v. intros w. apply (proj1 (Hv w)).
Defined.

Lemma C10_witness :
  NewBackend 4 (BackendConfigBlock.mk "state" "s3" nilInterface noRegion 7)
  = NewBackend 4 (yamlBlock "s3" noRegion).
Proof.
  apply (proj2 (proj2 (C10_yaml_is_default 4
                         (BackendConfigBlock.mk "state" "s3" nilInterface noRegion 7)
                         ltac:(discriminate)))
           nilInterface).
Defined.

(** ** The further properties at concrete inputs *)

Lemma NewBackend_echoes_type_and_name_witness :
  TerraformBackend.BackendType (sampleBackend "local") = "local"
  /\ TerraformBackend.BackendName (sampleBackend "local") = "state"
  /\ ("local" = "local" \/ "local" = "s3").
Proof.
  apply (NewBackend_echoes_type_and_name 4 sampleWorld
           (yamlBlock "local" (localAt "terraform.tfstate"))
           (sampleBackend "local")).
  vm_compute. reflexivity.
Defined.

Lemma NewBackend_panics_only_witness :
  (BackendConfigBlock.format (yamlBlock "s3" noRegion) = cqproto.ConfigHCL
   /\ (forall body,
         BackendConfigBlock.ConfigAttrsHCL (yamlBlock "s3" noRegion)
         <> bodyInterface body)
   /\ trace noSession (NewBackend 4 (yamlBlock "s3" noRegion)) = [])
  \/ (BackendConfigBlock.BackendType (yamlBlock "s3" noRegion) = "s3"
      /\ exists b err,
          decodeS3BackendConfig (yamlBlock "s3" noRegion) = Return b
          /\ Region b = ""
          /\ noSession session_NewSession = inl err
          /\ "failed to load shared config" = Error err
          /\ trace noSession (NewBackend 4 (yamlBlock "s3" noRegion))
             = [session_NewSession]).
Proof.
  apply (NewBackend_panics_only 4 noSession (yamlBlock "s3" noRegion)
           "failed to load shared config").
  vm_compute. reflexivity.
Defined.

Lemma local_resolve_closes_its_file_witness :
  trace sampleWorld
    (NewBackend 4 (yamlBlock "local" (localAt "terraform.tfstate")))
  = [os_Open "terraform.tfstate";
     File_Close (mkFile "terraform.tfstate" sampleState)].
Proof.
  apply (proj1 (local_resolve_closes_its_file 4 sampleWorld
                  (yamlBlock "local" (localAt "terraform.tfstate")) eq_refl)
           "terraform.tfstate" (mkFile "terraform.tfstate" sampleState)).
  - vm_compute. left. reflexivity.
  - reflexivity.
Defined.

Lemma strategies_keep_apart_witness :
  Forall (fun e => isFileEvent e = false)
    (trace sampleWorld (NewBackend 4 (yamlBlock "s3" noRegion)))
  /\ (length (trace sampleWorld (NewBackend 4 (yamlBlock "s3" noRegion))) <= 4)%nat
  /\ (length (List.filter isFetch
                (trace sampleWorld (NewBackend 4 (yamlBlock "s3" noRegion))))
      <= 1)%nat.
Proof.
  apply (proj2 (strategies_keep_apart 4 sampleWorld (yamlBlock "s3" noRegion))
           eq_refl).
Defined.

Lemma s3_session_is_regional_witness :
  aws.SharedConfigState_ (regionalOptions "eu-west-1") = aws.SharedConfigEnable
  /\ aws.Credentials_ (aws.Config_ (regionalOptions "eu-west-1")) = None
  /\ exists region,
      aws.Region (aws.Config_ (regionalOptions "eu-west-1")) = Some region
      /\ (Region (mkS3BackendConfig "b" "tf/state" "" "") <> "" ->
          region = Region (mkS3BackendConfig "b" "tf/state" "" ""))
      /\ (Region (mkS3BackendConfig "b" "tf/state" "" "") = "" ->
          exists c,
            sampleWorld session_NewSession = inr c
            /\ sampleWorld
                 (s3manager_GetBucketRegion c
                    (Bucket (mkS3BackendConfig "b" "tf/state" "" ""))
                    "us-east-1")
               = inr region).
Proof.
  apply (s3_session_is_regional 4 sampleWorld (yamlBlock "s3" noRegion)
           (mkS3BackendConfig "b" "tf/state" "" "")
           (regionalOptions "eu-west-1") eq_refl).
  vm_compute. right. right. left. reflexivity.
Defined.

Lemma s3_fetch_target_witness :
  aws.mkGetObjectInput "b" "tf/state"
  = aws.mkGetObjectInput
      (Bucket (mkS3BackendConfig "b" "tf/state" "" ""))
      (Key (mkS3BackendConfig "b" "tf/state" "" ""))
  /\ aws.Region
       (aws.Overrides (s3.New (aws.mkSession 1) (aws.mkConfig None None)))
     = None
  /\ (exists opts,
        In (session_NewSessionWithOptions opts)
           (trace sampleWorld
              (NewS3TerraformBackend 4 (yamlBlock "s3" noRegion)))
        /\ sampleWorld (session_NewSessionWithOptions opts)
           = inr (aws.Session_
                    (s3.New (aws.mkSession 1) (aws.mkConfig None None))))
  /\ exists pre,
      trace sampleWorld (NewS3TerraformBackend 4 (yamlBlock "s3" noRegion))
      = (pre ++ [sampleFetch])%list
      /\ List.filter isFetch pre = [].
Proof.
  apply (s3_fetch_target 4 sampleWorld (yamlBlock "s3" noRegion)
           (mkS3BackendConfig "b" "tf/state" "" "")
           (s3.New (aws.mkSession 1) (aws.mkConfig None None))
           (aws.mkGetObjectInput "b" "tf/state") eq_refl).
  vm_compute. right. right. right. left. reflexivity.
Defined.

Lemma s3_ambient_credentials_witness :
  aws.Credentials_
    (aws.Overrides (s3.New (aws.mkSession 1) (aws.mkConfig None None)))
  = None.
Proof.
  apply (s3_ambient_credentials 4 sampleWorld (yamlBlock "s3" noRegion)
           (mkS3BackendConfig "b" "tf/state" "" "")
           (s3.New (aws.mkSession 1) (aws.mkConfig None None))
           (aws.mkGetObjectInput "b" "tf/state") eq_refl eq_refl).
  vm_compute. right. right. right. left. reflexivity.
Defined.

Lemma s3_outcome_after_fetch_witness :
  outcome sampleWorld (NewS3TerraformBackend 4 (yamlBlock "s3" noRegion))
  = Returned (sampleBackend "s3").
Proof.
  apply (s3_outcome_after_fetch 4 sampleWorld (yamlBlock "s3" noRegion)
           (mkS3BackendConfig "b" "tf/state" "" "")
           (s3.New (aws.mkSession 1) (aws.mkConfig None None))
           (aws.mkGetObjectInput "b" "tf/state") eq_refl).
  vm_compute. right. right. right. left. reflexivity.
Defined.

Lemma s3_errors_are_verbatim_witness :
  (exists pre e,
      trace lookupFails (NewS3TerraformBackend 4 (yamlBlock "s3" noRegion))
      = (pre ++ [e])%list
      /\ failedWith lookupFails e (errorString "NotFound: bucket"))
  \/ (RoleArn (mkS3BackendConfig "b" "tf/state" "" "") <> ""
      /\ arn.Parse (RoleArn (mkS3BackendConfig "b" "tf/state" "" ""))
         = inl (errorString "NotFound: bucket"))
  \/ (exists svc input result,
        In (S3_GetObject svc input)
           (trace lookupFails
              (NewS3TerraformBackend 4 (yamlBlock "s3" noRegion)))
        /\ lookupFails (S3_GetObject svc input) = inr result
        /\ parseAndValidate 4 (aws.Body result)
           = inl (errorString "NotFound: bucket")).
Proof.
  apply (s3_errors_are_verbatim 4 lookupFails (yamlBlock "s3" noRegion)
           (mkS3BackendConfig "b" "tf/state" "" "")
           (errorString "NotFound: bucket") eq_refl).
  vm_compute. reflexivity.
Defined.

Lemma local_validation_error_is_verbatim_witness :
  run staleFiles
    (NewLocalTerraformBackend 4 (yamlBlock "local" (localAt "old.tfstate")))
  = ([os_Open "old.tfstate"; File_Close (mkFile "old.tfstate" oldState)],
     Failed (errorString "unsupported state version 3")).
Proof.
  apply (local_validation_error_is_verbatim 4 staleFiles
           (yamlBlock "local" (localAt "old.tfstate"))
           (mkLocalBackendConfig "old.tfstate")
           (mkFile "old.tfstate" oldState)
           (errorString "unsupported state version 3"));
    reflexivity.
Defined.

Lemma hcl_decoding_is_strict_witness :
  run sampleWorld (NewBackend 4 (hclBlock "s3" hclWithProfile))
  = ([], Failed (errors.New "cannot parse s3 backend config")).
Proof.
  apply (proj1 (hcl_decoding_is_strict 4 sampleWorld
                  (hclBlock "s3" hclWithProfile)
                  (hcl.mkBody hclWithProfile []) eq_refl eq_refl) eq_refl).
  left. exists "profile", (hcl.StringLit "dev"). split; reflexivity.
Defined.


Lemma NewBackend_adds_nothing_witness :
  run sampleWorld (NewBackend 4 (yamlBlock "s3" noRegion))
  = run sampleWorld (NewS3TerraformBackend 4 (yamlBlock "s3" noRegion)).
Proof.
  apply (proj2 (NewBackend_adds_nothing 4 sampleWorld (yamlBlock "s3" noRegion))).
  reflexivity.
Defined.

Lemma s3_lookup_uses_default_session_witness :
  Region (mkS3BackendConfig "b" "tf/state" "" "") = ""
  /\ sampleWorld session_NewSession = inr (aws.mkSession 0)
  /\ exists rest,
      trace sampleWorld (NewS3TerraformBackend 4 (yamlBlock "s3" noRegion))
      = session_NewSession
        :: s3manager_GetBucketRegion (aws.mkSession 0) "b" "us-east-1" :: rest.
Proof.
  apply (s3_lookup_uses_default_session 4 sampleWorld (yamlBlock "s3" noRegion)
           (mkS3BackendConfig "b" "tf/state" "" "")
           (aws.mkSession 0) "b" "us-east-1" eq_refl).
  vm_compute. right. left. reflexivity.
Defined.
